(** * jiutian proxy: a shallow embedding of [app.js]

    The repository is one Express application, [app.js], that fronts the
    Jiutian model API: [generateToken] mints the bearer credential, two
    routes forward requests unchanged ([/api/completions], [/api/chat]) and
    the Ollama-compatible routes ([/api/tags], [/api/generate], [/api/chat])
    translate the provider's event stream frame by frame.

    The embedding follows the later of the two revisions of [app.js] kept in
    the source tree (the one with the Ollama-compatible routes).

    - JavaScript strings are sequences of UTF-16 code units ([jsstring]);
      [length] is the JavaScript [.length].  A chunk of the upstream stream
      is the text [chunk.toString()] gives.
    - Values read from JSON are [value]s; property reads, truthiness and
      string coercion follow ECMAScript on them.  Numbers are kept as the
      exact decimals JSON writes; printing a number and reading a number
      from a string are primitives of the [Engine].
    - [JSON.parse] is a recursive-descent parser over code units, shown
      below never to run out of fuel.
    - Handlers run in a state-and-exception monad over a [world] that
      records, in order, every call made on [res] and every upstream call;
      [delivered] reads off what reaches the client, which is nothing more
      once the response has ended.
    - The clock, the configuration and the upstream provider are the
      [Host].  The libraries are modelled by what the program relies on:
      Express hands a request to the first matching route, [axios.post]
      resolves or rejects, [jwt.sign] refuses an empty key and stamps
      [iat].
    - Console output is not recorded. *)

From Stdlib Require Import List NArith ZArith Bool Lia String Ascii.
From Stdlib Require Import DecimalString.
Import ListNotations.

Local Open Scope string_scope.
Local Open Scope list_scope.
Set Warnings "-register-all".

(* ================================================================== *)
(** ** JavaScript strings *)

Definition jsstring := list N.

(** An ASCII literal as a JavaScript string. *)
Definition str (s : string) : jsstring :=
  List.map N_of_ascii (list_ascii_of_string s).

(** An ASCII literal in which every apostrophe stands for a double quote;
    used to write JSON text. *)
Definition dq (s : string) : jsstring :=
  List.map (fun c => if N.eqb c 39 then 34%N else c) (str s).

Fixpoint str_eqb (a b : jsstring) : bool :=
  match a, b with
  | [], [] => true
  | x :: a', y :: b' => N.eqb x y && str_eqb a' b'
  | _, _ => false
  end.

(** [text.startsWith(prefix)] *)
Fixpoint startsWith (text prefix : jsstring) : bool :=
  match prefix, text with
  | [], _ => true
  | p :: prefix', c :: text' => N.eqb p c && startsWith text' prefix'
  | _ :: _, [] => false
  end.

(** [text.substring(n)] *)
Definition substring (n : nat) (text : jsstring) : jsstring := skipn n text.

(** [s.split(".")] *)
Fixpoint split_dot (s : jsstring) : list jsstring :=
  match s with
  | [] => [[]]
  | c :: r =>
      if N.eqb c 46 then [] :: split_dot r
      else match split_dot r with
           | part :: parts => (c :: part) :: parts
           | [] => [[c]]
           end
  end.

(* ================================================================== *)
(** ** Numbers and values *)

(** A JSON numeral denotes a decimal [(-1)^neg * mant * 10^exp10]; the
    Number it becomes is the double nearest to it. *)
Record number := mkNum { neg : bool; mant : N; exp10 : Z }.

Definition num_of_nat (n : nat) : number := mkNum false (N.of_nat n) 0.
Definition num_of_Z (z : Z) : number :=
  mkNum (Z.ltb z 0) (Z.to_N (Z.abs z)) 0.

(** The decimal rounds to the double zero exactly when its magnitude is at
    most 2^-1075 (half the least subnormal; the tie goes to the even
    neighbour, zero). *)
Definition num_is_zero (n : number) : bool :=
  if N.eqb (mant n) 0 then true
  else if Z.leb 0 (exp10 n) then false
  else Z.leb (Z.of_N (mant n) * 2 ^ 1075) (10 ^ (- exp10 n)).

(** [n > 0] *)
Definition num_gt0 (n : number) : bool :=
  negb (neg n) && negb (num_is_zero n).

Inductive value :=
| VUndefined
| VNull
| VBool (b : bool)
| VNum (n : number)
| VStr (s : jsstring)
| VArr (elems : list value)
| VObj (props : list (jsstring * value)).

(** An object literal, properties in source order. *)
Definition obj (props : list (string * value)) : value :=
  VObj (List.map (fun kv => (str (fst kv), snd kv)) props).

Definition VTrue := VBool true.
Definition VFalse := VBool false.
Definition vnat (n : nat) : value := VNum (num_of_nat n).
Definition vint (z : Z) : value := VNum (num_of_Z z).
Definition vN (n : N) : value := VNum (mkNum false n 0).

(** Own property of a parsed object; of duplicate keys the last one wins. *)
Fixpoint own (k : jsstring) (props : list (jsstring * value)) : option value :=
  match props with
  | [] => None
  | (k', v) :: rest =>
      match own k rest with
      | Some x => Some x
      | None => if str_eqb k' k then Some v else None
      end
  end.

(** ToBoolean *)
Definition truthy (v : value) : bool :=
  match v with
  | VUndefined | VNull => false
  | VBool b => b
  | VNum n => negb (num_is_zero n)
  | VStr s => match s with [] => false | _ => true end
  | VArr _ | VObj _ => true
  end.

(** [v === w] against a string constant *)
Definition strict_eq_str (v : value) (s : jsstring) : bool :=
  match v with
  | VStr t => str_eqb t s
  | _ => false
  end.

(** [v === true] *)
Definition strict_eq_true (v : value) : bool :=
  match v with
  | VBool true => true
  | _ => false
  end.

(* ================================================================== *)
(** ** Errors and the exception monad of expressions *)

Inductive error :=
| JsError (message : jsstring)            (* [new Error(message)], rejections *)
| TypeError (base : value) (key : jsstring) (* property read on undefined/null *)
| SyntaxError (text : jsstring).          (* [JSON.parse] *)

Inductive outcome (A : Type) :=
| Ok (a : A)
| Throw (e : error).
Arguments Ok {A} a.
Arguments Throw {A} e.

Definition index_key (i : nat) : jsstring :=
  str (NilEmpty.string_of_uint (Nat.to_uint i)).

(** [base.key] for the property names this program reads (none of them is
    inherited from a prototype, [length] apart). *)
Definition get (base : value) (key : string) : outcome value :=
  match base with
  | VUndefined | VNull => Throw (TypeError base (str key))
  | VBool _ | VNum _ => Ok VUndefined
  | VStr s =>
      if String.eqb key "length" then Ok (vnat (List.length s))
      else Ok VUndefined
  | VArr l =>
      if String.eqb key "length" then Ok (vnat (List.length l))
      else Ok VUndefined
  | VObj props =>
      match own (str key) props with
      | Some v => Ok v
      | None => Ok VUndefined
      end
  end.

(** [base[i]] *)
Definition get_idx (base : value) (i : nat) : outcome value :=
  match base with
  | VUndefined | VNull => Throw (TypeError base (index_key i))
  | VBool _ | VNum _ => Ok VUndefined
  | VStr s =>
      match nth_error s i with
      | Some c => Ok (VStr [c])
      | None => Ok VUndefined
      end
  | VArr l =>
      match nth_error l i with
      | Some v => Ok v
      | None => Ok VUndefined
      end
  | VObj props =>
      match own (index_key i) props with
      | Some v => Ok v
      | None => Ok VUndefined
      end
  end.

(** A destructuring default: [{ k = d } = base] *)
Definition default_to (d v : value) : value :=
  match v with
  | VUndefined => d
  | _ => v
  end.

(** [a || b] on values *)
Definition or_else (a b : value) : value := if truthy a then a else b.

(* ================================================================== *)
(** ** JSON.parse *)

Module Json.

Definition is_ws (c : N) : bool :=
  N.eqb c 32 || N.eqb c 9 || N.eqb c 10 || N.eqb c 13.

Fixpoint skip_ws (s : jsstring) : jsstring :=
  match s with
  | c :: r => if is_ws c then skip_ws r else s
  | [] => []
  end.

Definition is_digit (c : N) : bool := N.leb 48 c && N.leb c 57.

Definition hex_val (c : N) : option N :=
  if is_digit c then Some (c - 48)%N
  else if N.leb 97 c && N.leb c 102 then Some (c - 87)%N
  else if N.leb 65 c && N.leb c 70 then Some (c - 55)%N
  else None.

Definition hex4 (a b c d : N) : option N :=
  match hex_val a, hex_val b, hex_val c, hex_val d with
  | Some x, Some y, Some z, Some w => Some (((x * 16 + y) * 16 + z) * 16 + w)%N
  | _, _, _, _ => None
  end.

(** The character a single-letter escape denotes. *)
Definition unescape (e : N) : option N :=
  if N.eqb e 34 then Some 34%N          (* quote *)
  else if N.eqb e 92 then Some 92%N     (* backslash *)
  else if N.eqb e 47 then Some 47%N     (* slash *)
  else if N.eqb e 98 then Some 8%N      (* b: backspace *)
  else if N.eqb e 102 then Some 12%N    (* f: form feed *)
  else if N.eqb e 110 then Some 10%N    (* n: line feed *)
  else if N.eqb e 114 then Some 13%N    (* r: carriage return *)
  else if N.eqb e 116 then Some 9%N     (* t: tab *)
  else None.

(** The characters of a string literal after its opening quote, up to and
    including the closing one. *)
Fixpoint parse_chars (s : jsstring) : option (jsstring * jsstring) :=
  match s with
  | [] => None
  | c :: r =>
      if N.eqb c 34 then Some ([], r)
      else if N.eqb c 92 then
        match r with
        | [] => None
        | e :: r1 =>
            if N.eqb e 117 then
              match r1 with
              | a :: b :: c' :: d :: r2 =>
                  match hex4 a b c' d with
                  | Some u =>
                      match parse_chars r2 with
                      | Some (t, rest) => Some (u :: t, rest)
                      | None => None
                      end
                  | None => None
                  end
              | _ => None
              end
            else
              match unescape e with
              | Some u =>
                  match parse_chars r1 with
                  | Some (t, rest) => Some (u :: t, rest)
                  | None => None
                  end
              | None => None
              end
        end
      else if N.ltb c 32 then None
      else
        match parse_chars r with
        | Some (t, rest) => Some (c :: t, rest)
        | None => None
        end
  end.

Fixpoint take_digits (s : jsstring) : list N * jsstring :=
  match s with
  | c :: r =>
      if is_digit c then
        let (ds, rest) := take_digits r in ((c - 48)%N :: ds, rest)
      else ([], s)
  | [] => ([], [])
  end.

Definition digits_value (ds : list N) : N :=
  fold_left (fun acc d => (acc * 10 + d)%N) ds 0%N.

Definition parse_exponent (s : jsstring) : option (Z * jsstring) :=
  match s with
  | c :: r =>
      if N.eqb c 101 || N.eqb c 69 then
        let '(sign, r1) :=
          match r with
          | c1 :: r' =>
              if N.eqb c1 45 then ((-1)%Z, r')
              else if N.eqb c1 43 then (1%Z, r')
              else (1%Z, r)
          | [] => (1%Z, r)
          end in
        match take_digits r1 with
        | ([], _) => None
        | (ds, rest) => Some ((sign * Z.of_N (digits_value ds))%Z, rest)
        end
      else Some (0%Z, s)
  | [] => Some (0%Z, s)
  end.

Definition parse_fraction (s : jsstring) : option (list N * jsstring) :=
  match s with
  | c :: r =>
      if N.eqb c 46 then
        match take_digits r with
        | ([], _) => None
        | (ds, rest) => Some (ds, rest)
        end
      else Some ([], s)
  | [] => Some ([], s)
  end.

Definition parse_number (s : jsstring) : option (number * jsstring) :=
  let '(sign, s1) :=
    match s with
    | c :: r => if N.eqb c 45 then (true, r) else (false, s)
    | [] => (false, s)
    end in
  match take_digits s1 with
  | ([], _) => None
  | (d :: more, s2) =>
      if N.eqb d 0 && negb (Nat.eqb (List.length more) 0) then None
      else
        match parse_fraction s2 with
        | None => None
        | Some (frac, s3) =>
            match parse_exponent s3 with
            | None => None
            | Some (e, s4) =>
                Some (mkNum sign (digits_value ((d :: more) ++ frac))
                        (e - Z.of_nat (List.length frac)), s4)
            end
        end
  end.

Fixpoint strip_prefix (p s : jsstring) : option jsstring :=
  match p, s with
  | [], _ => Some s
  | x :: p', c :: s' => if N.eqb x c then strip_prefix p' s' else None
  | _ :: _, [] => None
  end.

Inductive presult (A : Type) :=
| POk (a : A) (rest : jsstring)
| PErr
| PFuel.
Arguments POk {A} a rest.
Arguments PErr {A}.
Arguments PFuel {A}.

Definition literal (word : string) (v : value) (s : jsstring) : presult value :=
  match strip_prefix (str word) s with
  | Some rest => POk v rest
  | None => PErr
  end.

Fixpoint parse_value (fuel : nat) (s : jsstring) : presult value :=
  match fuel with
  | O => PFuel
  | S f =>
      match s with
      | [] => PErr
      | c :: r =>
          if N.eqb c 123 then
            match skip_ws r with
            | [] => PErr
            | c' :: r' =>
                if N.eqb c' 125 then POk (VObj []) r'
                else match parse_members f (c' :: r') with
                     | POk kvs rest => POk (VObj kvs) rest
                     | PErr => PErr
                     | PFuel => PFuel
                     end
            end
          else if N.eqb c 91 then
            match skip_ws r with
            | [] => PErr
            | c' :: r' =>
                if N.eqb c' 93 then POk (VArr []) r'
                else match parse_elements f (c' :: r') with
                     | POk vs rest => POk (VArr vs) rest
                     | PErr => PErr
                     | PFuel => PFuel
                     end
            end
          else if N.eqb c 34 then
            match parse_chars r with
            | Some (t, rest) => POk (VStr t) rest
            | None => PErr
            end
          else if N.eqb c 116 then literal "true" VTrue s
          else if N.eqb c 102 then literal "false" VFalse s
          else if N.eqb c 110 then literal "null" VNull s
          else
            match parse_number s with
            | Some (n, rest) => POk (VNum n) rest
            | None => PErr
            end
      end
  end
with parse_elements (fuel : nat) (s : jsstring) : presult (list value) :=
  match fuel with
  | O => PFuel
  | S f =>
      match parse_value f s with
      | POk v r =>
          match skip_ws r with
          | [] => PErr
          | c :: r' =>
              if N.eqb c 44 then
                match parse_elements f (skip_ws r') with
                | POk vs rest => POk (v :: vs) rest
                | PErr => PErr
                | PFuel => PFuel
                end
              else if N.eqb c 93 then POk [v] r'
              else PErr
          end
      | PErr => PErr
      | PFuel => PFuel
      end
  end
with parse_members (fuel : nat) (s : jsstring)
  : presult (list (jsstring * value)) :=
  match fuel with
  | O => PFuel
  | S f =>
      match s with
      | [] => PErr
      | c :: r =>
          if N.eqb c 34 then
            match parse_chars r with
            | None => PErr
            | Some (k, r1) =>
                match skip_ws r1 with
                | [] => PErr
                | c1 :: r2 =>
                    if N.eqb c1 58 then
                      match parse_value f (skip_ws r2) with
                      | POk v r3 =>
                          match skip_ws r3 with
                          | [] => PErr
                          | c3 :: r4 =>
                              if N.eqb c3 44 then
                                match parse_members f (skip_ws r4) with
                                | POk kvs rest => POk ((k, v) :: kvs) rest
                                | PErr => PErr
                                | PFuel => PFuel
                                end
                              else if N.eqb c3 125 then POk [(k, v)] r4
                              else PErr
                          end
                      | PErr => PErr
                      | PFuel => PFuel
                      end
                    else PErr
                end
            end
          else PErr
      end
  end.

(** The fuel [parse] gives the descent: two steps per character and one. *)
Definition fuel_for (s : jsstring) : nat := 2 * List.length s + 1.

Definition parse_document (s : jsstring) : presult value :=
  parse_value (fuel_for (skip_ws s)) (skip_ws s).

(** [JSON.parse(text)]: [None] is the SyntaxError. *)
Definition parse (text : jsstring) : option value :=
  match parse_document text with
  | POk v rest =>
      match skip_ws rest with
      | [] => Some v
      | _ :: _ => None
      end
  | PErr | PFuel => None
  end.

End Json.

Definition JSON_parse (text : jsstring) : outcome value :=
  match Json.parse text with
  | Some v => Ok v
  | None => Throw (SyntaxError text)
  end.

(* ================================================================== *)
(** ** The engine, the host and the world *)

(** What [jsonwebtoken] puts together: header, payload and the signature
    over both under the signing key. *)
Record jwt := mkJwt {
  jwt_header : value;
  jwt_payload : value;
  jwt_signature : jsstring
}.

(** Primitives of the JavaScript engine and its libraries whose algorithms
    lie outside this program. *)
Record Engine := {
  Number_toString : number -> jsstring;       (* Number::toString *)
  StringToNumber_gt0 : jsstring -> bool;      (* StringToNumber(s) > 0 *)
  Date_toISOString : Z -> jsstring;           (* of milliseconds since the epoch *)
  HMAC_SHA256 : jsstring -> value -> value -> jsstring;
                                              (* key, header, payload *)
  native_message : error -> jsstring;         (* message of an engine error *)
  stack_of : error -> jsstring                (* [error.stack] *)
}.

(** [axios.post(url, body, { headers: { Authorization: `Bearer ${token}` } })] *)
Record upstream_call := mkCall {
  call_url : jsstring;
  call_body : value;
  call_bearer : jwt
}.

(** Events of the upstream response stream. *)
Inductive stream_event :=
| on_data (chunk : jsstring)
| on_end
| on_error (err : error).

Inductive stream_reply :=
| StreamRejected (e : error)
| Stream (events : list stream_event).

Inductive json_reply :=
| JsonRejected (e : error)
| JsonResolved (data : value).

(** The environment of one request: the clock, the configuration and the
    upstream provider. *)
Record Host := {
  Date_now : nat -> Z;                  (* the clock at its n-th reading, ms *)
  JIUTIAN_API_KEY : option jsstring;    (* [process.env.JIUTIAN_API_KEY] *)
  NODE_ENV : option jsstring;           (* [process.env.NODE_ENV] *)
  upstream_stream : upstream_call -> stream_reply;
  upstream_json : upstream_call -> json_reply
}.

(** What is handed to the client connection: an upstream chunk as it came,
    [`data: ${JSON.stringify(v)}\n\n`], or the body of [res.json(v)]. *)
Inductive payload :=
| Raw (chunk : jsstring)
| SseData (v : value)
| JsonBody (v : value).

Inductive effect :=
| ResSetHeader (name val : jsstring)
| ResStatus (code : nat)
| ResJson (body : value)
| ResWrite (p : payload)
| ResEnd (p : option payload)
| AxiosPost (c : upstream_call) (streaming : bool).

(** A frame written to the response, as the call on [res]. *)
Definition write_frame (frame : value) : effect := ResWrite (SseData frame).

(** The state of one request: the calls made so far, the number of clock
    readings, and the accumulator captured by the data callback
    ([fullResponse] in /api/generate, [fullContent] in /api/chat). *)
Record world := mkWorld {
  trace : list effect;
  ticks : nat;
  full : jsstring
}.

Definition world0 : world := mkWorld [] 0 [].

(** What reaches the client: once the response has ended nothing more is
    delivered. *)
Fixpoint delivered_trace (t : list effect) : list payload :=
  match t with
  | [] => []
  | e :: rest =>
      match e with
      | ResWrite p => p :: delivered_trace rest
      | ResEnd (Some p) => [p]
      | ResEnd None => []
      | ResJson v => [JsonBody v]
      | _ => delivered_trace rest
      end
  end.

Definition delivered (w : world) : list payload := delivered_trace (trace w).

(** The call ends the response. *)
Definition ends (e : effect) : bool :=
  match e with
  | ResEnd _ | ResJson _ => true
  | _ => false
  end.

(** The response has been ended. *)
Definition finished (w : world) : bool := existsb ends (trace w).

(** The status line: the last [res.status] before the body, 200 otherwise. *)
Definition status_code (w : world) : nat :=
  fold_left (fun acc e => match e with ResStatus c => c | _ => acc end)
            (trace w) 200.

Definition upstream_calls (w : world) : list upstream_call :=
  flat_map (fun e => match e with AxiosPost c _ => [c] | _ => [] end) (trace w).

(** A field as the client reads it from a serialised object:
    [JSON.stringify] leaves out properties whose value is undefined. *)
Definition json_field (v : value) (k : string) : option value :=
  match v with
  | VObj props =>
      match own (str k) props with
      | Some VUndefined => None
      | r => r
      end
  | _ => None
  end.

(* ------------------------------------------------------------------ *)
(** *** The monad of handlers *)

Definition M (A : Type) : Type := world -> outcome A * world.

Class Monad (m : Type -> Type) := {
  ret : forall {A}, A -> m A;
  bind : forall {A B}, m A -> (A -> m B) -> m B
}.

#[export] Instance outcome_monad : Monad outcome := {
  ret := fun A a => Ok a;
  bind := fun A B o k => match o with Ok a => k a | Throw e => Throw e end
}.

#[export] Instance M_monad : Monad M := {
  ret := fun A a w => (Ok a, w);
  bind := fun A B m k w =>
            match m w with
            | (Ok a, w') => k a w'
            | (Throw e, w') => (Throw e, w')
            end
}.

Declare Scope js_scope.
Delimit Scope js_scope with js.
Notation "x <- m ;; k" := (bind m (fun x => k))
  (at level 61, m at next level, right associativity) : js_scope.
Notation "m ;; k" := (bind m (fun _ => k))
  (at level 61, right associativity) : js_scope.
Local Open Scope js_scope.

Definition throw {A} (e : error) : M A := fun w => (Throw e, w).

Definition lift {A} (o : outcome A) : M A := fun w => (o, w).

(** [try { body } catch (error) { handler }] *)
Definition try_catch {A} (body : M A) (handler : error -> M A) : M A :=
  fun w =>
    match body w with
    | (Throw e, w') => handler e w'
    | r => r
    end.

Definition emit (e : effect) : M unit :=
  fun w => (Ok tt, mkWorld (trace w ++ [e]) (ticks w) (full w)).

(** [fullResponse += s] *)
Definition append_full (s : jsstring) : M unit :=
  fun w => (Ok tt, mkWorld (trace w) (ticks w) (full w ++ s)).

Definition read_full : M jsstring := fun w => (Ok (full w), w).

(** [for (const x of xs) await f(x)] *)
Fixpoint for_each {A} (f : A -> M unit) (xs : list A) : M unit :=
  match xs with
  | [] => ret tt
  | x :: rest => f x ;; for_each f rest
  end.

(** [Date.now()] *)
Definition now (h : Host) : M Z :=
  fun w => (Ok (Date_now h (ticks w)),
            mkWorld (trace w) (S (ticks w)) (full w)).

(** [Math.floor(Date.now() / 1000)] *)
Definition now_seconds (h : Host) : M Z :=
  ms <- now h ;; ret (ms / 1000)%Z.

(* ------------------------------------------------------------------ *)
(** *** Constants of the program *)

Definition JIUTIAN_API_BASE_URL : jsstring :=
  str "https://jiutian.10086.cn/largemodel/api/v2".
Definition completions_url : jsstring := JIUTIAN_API_BASE_URL ++ str "/completions".
Definition chat_completions_url : jsstring :=
  JIUTIAN_API_BASE_URL ++ str "/chat/completions".

Definition jiutian_lan : jsstring := str "jiutian-lan".

(** The messages of the program, as code units. *)
Definition msg_invalid_api_key : jsstring :=      (* 无效的 API Key *)
  [26080; 25928; 30340; 32; 65; 80; 73; 32; 75; 101; 121]%N.
Definition msg_call_failed : jsstring :=          (* 九天模型调用失败 *)
  [20061; 22825; 27169; 22411; 35843; 29992; 22833; 36133]%N.
Definition msg_stream_error : jsstring :=         (* 流式响应错误 *)
  [27969; 24335; 21709; 24212; 38169; 35823]%N.
Definition msg_generate_failed : jsstring :=      (* 生成失败 *)
  [29983; 25104; 22833; 36133]%N.
Definition msg_chat_failed : jsstring :=          (* 聊天失败 *)
  [32842; 22825; 22833; 36133]%N.
Definition msg_model_prefix : jsstring :=         (* 模型 ' *)
  [27169; 22411; 32; 39]%N.
Definition msg_model_suffix : jsstring :=         (* ' 不存在，请使用 'jiutian-lan' *)
  [39; 32; 19981; 23384; 22312; 65292; 35831; 20351; 29992; 32; 39]%N
    ++ jiutian_lan ++ [39%N].

Definition num_0_7 : number := mkNum false 7 (-1).
Definition num_0_9 : number := mkNum false 9 (-1).

Definition sse_headers : list effect :=
  [ ResSetHeader (str "Content-Type") (str "text/event-stream");
    ResSetHeader (str "Cache-Control") (str "no-cache");
    ResSetHeader (str "Connection") (str "keep-alive") ].

(* ================================================================== *)
(** ** The program *)

Inductive method := GET | POST.

Definition method_eqb (a b : method) : bool :=
  match a, b with
  | GET, GET | POST, POST => true
  | _, _ => false
  end.

Section Relay.

Variable js : Engine.

(** ToString, as template literals and [+=] on a string apply it. *)
Fixpoint ToString (v : value) : jsstring :=
  match v with
  | VUndefined => str "undefined"
  | VNull => str "null"
  | VBool true => str "true"
  | VBool false => str "false"
  | VNum n => Number_toString js n
  | VStr s => s
  | VArr elems =>
      (fix join (l : list value) : jsstring :=
         match l with
         | [] => []
         | x :: rest =>
             let piece := match x with
                          | VUndefined | VNull => []
                          | _ => ToString x
                          end in
             match rest with
             | [] => piece
             | _ :: _ => piece ++ [44%N] ++ join rest
             end
         end) elems
  | VObj _ => str "[object Object]"
  end.

(** [v > 0] *)
Definition ToNumber_gt0 (v : value) : bool :=
  match v with
  | VUndefined | VNull => false
  | VBool b => b
  | VNum n => num_gt0 n
  | VStr s => StringToNumber_gt0 js s
  | VArr _ => StringToNumber_gt0 js (ToString v)
  | VObj _ => false
  end.

(** [error.message] *)
Definition message (e : error) : jsstring :=
  match e with
  | JsError m => m
  | _ => native_message js e
  end.

(** [new Date().toISOString()] *)
Definition toISOString_now (h : Host) : M jsstring :=
  ms <- now h ;; ret (Date_toISOString js ms).

(** What [new Date().toISOString()] gives at the n-th reading of the
    clock. *)
Definition created_at_reading (h : Host) (n : nat) : jsstring :=
  Date_toISOString js (Date_now h n).

(* ------------------------------------------------------------------ *)
(** *** generateToken *)

(** [jwt.sign(payload, secret, { algorithm: "HS256", header })] of
    jsonwebtoken: it refuses a missing or empty key, stamps [iat] on an
    object payload and signs header and payload with HMAC-SHA256. *)
Definition jwt_sign (h : Host) (payload : list (string * value))
    (secret : option jsstring) (header : value) : M jwt :=
  match secret with
  | Some (c :: key) =>
      iat <- now_seconds h ;;
      let claims := obj (payload ++ [("iat", vint iat)]) in
      ret (mkJwt header claims (HMAC_SHA256 js (c :: key) header claims))
  | Some [] | None =>
      throw (JsError (str "secretOrPrivateKey must have a value"))
  end.

Definition token_header : value :=
  obj [("alg", VStr (str "HS256")); ("typ", VStr (str "JWT"));
       ("sign_type", VStr (str "SIGN"))].

Definition generateToken (h : Host) (apiKey : option jsstring)
    (expSeconds : Z) : M jwt :=
  try_catch
    (match apiKey with
     | None => throw (TypeError VUndefined (str "split"))
     | Some key =>
         let parts := split_dot key in
         let id := match parts with
                   | p :: _ => VStr p
                   | [] => VUndefined
                   end in
         let secret := nth_error parts 1 in
         t_exp <- now_seconds h ;;
         t_stamp <- now_seconds h ;;
         let payload :=
           [("api_key", id);
            ("exp", vint (t_exp + expSeconds));
            ("timestamp", vint t_stamp)] in
         jwt_sign h payload secret token_header
     end)
    (fun error => throw (JsError msg_invalid_api_key)).

(* ------------------------------------------------------------------ *)
(** *** Upstream calls *)

(** [await axios.post(url, body, { ..., responseType: 'stream' })] *)
Definition axios_post_stream (h : Host) (url : jsstring) (body : value)
    (jwtToken : jwt) : M (list stream_event) :=
  let call := mkCall url body jwtToken in
  emit (AxiosPost call true) ;;
  match upstream_stream h call with
  | StreamRejected e => throw e
  | Stream events => ret events
  end.

(** [(await axios.post(url, body, { ... })).data] *)
Definition axios_post (h : Host) (url : jsstring) (body : value)
    (jwtToken : jwt) : M value :=
  let call := mkCall url body jwtToken in
  emit (AxiosPost call false) ;;
  match upstream_json h call with
  | JsonRejected e => throw e
  | JsonResolved data => ret data
  end.

Definition setHeaders_sse : M unit := for_each emit sse_headers.

(** The frame every stream [error] handler ends the response with. *)
Definition stream_error_frame : payload :=
  SseData (obj [("error", VStr msg_stream_error)]).

(** The body of the 500 answer of the forwarding routes. *)
Definition failure_body (h : Host) (error : error) : value :=
  obj [("error", VStr msg_call_failed);
       ("detail", VStr (message error));
       ("stack",
        match NODE_ENV h with
        | Some env =>
            if str_eqb env (str "development") then VStr (stack_of js error)
            else VUndefined
        | None => VUndefined
        end)].

(* ------------------------------------------------------------------ *)
(** *** /api/completions and the first /api/chat *)

(** The call each pass-through callback makes on [res]. *)
Definition pass_effect (ev : stream_event) : effect :=
  match ev with
  | on_data chunk => ResWrite (Raw chunk)
  | on_end => ResEnd None
  | on_error err => ResEnd (Some stream_error_frame)
  end.

(** The three callbacks both pass-through handlers register. *)
Definition pass_through (ev : stream_event) : M unit :=
  match ev with
  | on_data chunk => emit (ResWrite (Raw chunk))
  | on_end => emit (ResEnd None)
  | on_error err => emit (ResEnd (Some stream_error_frame))
  end.

(** The frame a pass-through handler writes in its [catch]. *)
Definition failure_frame (error : error) : payload :=
  SseData (obj [("error", VStr msg_call_failed);
                ("detail", VStr (message error))]).

Definition handleStream (h : Host) (url : jsstring) (body : value) : M unit :=
  try_catch
    (jwtToken <- generateToken h (JIUTIAN_API_KEY h) 3600 ;;
     setHeaders_sse ;;
     response <- axios_post_stream h url body jwtToken ;;
     for_each pass_through response)
    (fun error =>
       emit (ResWrite (failure_frame error)) ;;
       emit (ResEnd None)).

Definition handleStreamCompletions (h : Host) (body : value) : M unit :=
  handleStream h completions_url body.

Definition handleStreamChat (h : Host) (body : value) : M unit :=
  handleStream h chat_completions_url body.

Definition forward (h : Host) (url : jsstring)
    (streaming : Host -> value -> M unit) (body : value) : M unit :=
  try_catch
    (stream <- lift (get body "stream") ;;
     if strict_eq_true stream then streaming h body
     else
       jwtToken <- generateToken h (JIUTIAN_API_KEY h) 3600 ;;
       result <- axios_post h url body jwtToken ;;
       emit (ResJson result))
    (fun error =>
       emit (ResStatus 500) ;;
       emit (ResJson (failure_body h error))).

(** [app.post("/api/completions", ...)] *)
Definition api_completions (h : Host) (body : value) : M unit :=
  forward h completions_url handleStreamCompletions body.

(** The first [app.post("/api/chat", ...)] *)
Definition api_chat (h : Host) (body : value) : M unit :=
  forward h chat_completions_url handleStreamChat body.

(* ------------------------------------------------------------------ *)
(** *** The Ollama-compatible routes *)

(** [app.get("/api/tags", ...)] *)
Definition api_tags (h : Host) (body : value) : M unit :=
  modified_at <- toISOString_now h ;;
  let models :=
    VArr [obj [("name", VStr jiutian_lan);
               ("modified_at", VStr modified_at);
               ("size", vnat 0);
               ("digest", VStr (str "jiutian-lan-model-digest"));
               ("details",
                obj [("format", VStr (str "gguf"));
                     ("family", VStr (str "jiutian"));
                     ("families", VNull);
                     ("parameter_size", VStr (str "7B"));
                     ("quantization_level", VStr (str "Q4_0"))])]] in
  emit (ResJson (obj [("models", models)])).

(** [data.choices && data.choices.length > 0 && data.choices[0].delta &&
    data.choices[0].delta[field]]: the delta's text when all four hold.
    /api/generate reads [text], the compatible /api/chat [content]. *)
Definition delta_field (field : string) (data : value)
  : outcome (option value) :=
  choices <- get data "choices" ;;
  if truthy choices then
    len <- get choices "length" ;;
    if ToNumber_gt0 len then
      first <- get_idx choices 0 ;;
      delta <- get first "delta" ;;
      if truthy delta then
        txt <- get delta field ;;
        if truthy txt then ret (Some txt) else ret None
      else ret None
    else ret None
  else ret None.

(** [data.choices && data.choices[0].delta &&
    data.choices[0].delta.status === "finish"] *)
Definition finish_marker (data : value) : outcome bool :=
  choices <- get data "choices" ;;
  if truthy choices then
    first <- get_idx choices 0 ;;
    delta <- get first "delta" ;;
    if truthy delta then
      status <- get delta "status" ;;
      ret (strict_eq_str status (str "finish"))
    else ret false
  else ret false.

(** The delta of a frame, appended to the accumulator when there is one. *)
Definition take_delta (field : string) (data : value) : M value :=
  found <- lift (delta_field field data) ;;
  match found with
  | Some txt => append_full (ToString txt) ;; ret txt
  | None => ret (VStr [])
  end.

Definition generate_frame (created_at : jsstring) (responseText : value)
  : value :=
  obj [("model", VStr jiutian_lan);
       ("created_at", VStr created_at);
       ("response", responseText);
       ("done", VFalse)].

Definition generate_final (created_at : jsstring) (done_text : value)
    (prompt_eval_count eval_count : value) : value :=
  obj [("model", VStr jiutian_lan);
       ("created_at", VStr created_at);
       ("response", done_text);
       ("done", VTrue);
       ("context", VArr [vnat 1; vnat 2; vnat 3]);
       ("total_duration", vN 1000000000);
       ("load_duration", vN 100000000);
       ("prompt_eval_count", prompt_eval_count);
       ("prompt_eval_duration", vN 200000000);
       ("eval_count", eval_count);
       ("eval_duration", vN 700000000)].

(** The [data] callback of the streaming /api/generate.  ([isFirstChunk],
    declared next to [fullResponse], is never read.) *)
Definition generate_on_data (h : Host) (prompt : value) (chunk : jsstring)
  : M unit :=
  try_catch
    (let text := chunk in
     if startsWith text (str "data: ") then
       let jsonStr := substring 6 text in
       data <- lift (JSON_parse jsonStr) ;;
       responseText <- take_delta "text" data ;;
       created_at <- toISOString_now h ;;
       emit (ResWrite (SseData (generate_frame created_at responseText))) ;;
       finish <- lift (finish_marker data) ;;
       if (finish : bool) then
         created_at <- toISOString_now h ;;
         prompt_eval_count <- lift (get prompt "length") ;;
         fullResponse <- read_full ;;
         emit (ResWrite (SseData
                 (generate_final created_at (VStr []) prompt_eval_count
                    (vnat (List.length fullResponse))))) ;;
         emit (ResEnd None)
       else ret tt
     else ret tt)
    (fun error => ret tt).

Definition generate_callbacks (h : Host) (prompt : value)
    (ev : stream_event) : M unit :=
  match ev with
  | on_data chunk => generate_on_data h prompt chunk
  | on_end => ret tt
  | on_error err => emit (ResEnd (Some stream_error_frame))
  end.

Definition model_not_found (model : value) : value :=
  obj [("error",
        VStr (msg_model_prefix ++ ToString model ++ msg_model_suffix))].

(** [app.post("/api/generate", ...)] *)
Definition api_generate (h : Host) (body : value) : M unit :=
  try_catch
    (model <- lift (get body "model") ;;
     prompt <- lift (get body "prompt") ;;
     stream0 <- lift (get body "stream") ;;
     let stream := default_to VTrue stream0 in
     system0 <- lift (get body "system") ;;
     options0 <- lift (get body "options") ;;
     let options := default_to (VObj []) options0 in
     if negb (strict_eq_str model jiutian_lan) then
       emit (ResStatus 404) ;;
       emit (ResJson (model_not_found model))
     else
       temperature <- lift (get options "temperature") ;;
       top_p <- lift (get options "top_p") ;;
       let jiutianParams :=
         obj [("model", VStr jiutian_lan);
              ("prompt", prompt);
              ("temperature", or_else temperature (VNum num_0_7));
              ("top_p", or_else top_p (VNum num_0_9));
              ("history", VArr []);
              ("stream", stream)] in
       jwtToken <- generateToken h (JIUTIAN_API_KEY h) 3600 ;;
       if truthy stream then
         setHeaders_sse ;;
         response <- axios_post_stream h completions_url jiutianParams
                       jwtToken ;;
         for_each (generate_callbacks h prompt) response
       else
         result <- axios_post h completions_url jiutianParams jwtToken ;;
         choices <- lift (get result "choices") ;;
         responseText <-
           (if truthy choices then
              len <- lift (get choices "length") ;;
              if ToNumber_gt0 len then
                first <- lift (get_idx choices 0) ;;
                txt <- lift (get first "text") ;;
                ret (or_else txt (VStr []))
              else ret (VStr [])
            else ret (VStr [])) ;;
         created_at <- toISOString_now h ;;
         prompt_eval_count <- lift (get prompt "length") ;;
         eval_count <- lift (get responseText "length") ;;
         emit (ResJson (generate_final created_at responseText
                          prompt_eval_count eval_count)))
    (fun error =>
       emit (ResStatus 500) ;;
       emit (ResJson (obj [("error", VStr msg_generate_failed);
                           ("detail", VStr (message error))]))).

Definition assistant (content : value) : value :=
  obj [("role", VStr (str "assistant")); ("content", content)].

Definition chat_frame (created_at : jsstring) (contentDelta : value) : value :=
  obj [("model", VStr jiutian_lan);
       ("created_at", VStr created_at);
       ("message", assistant contentDelta);
       ("done", VFalse)].

Definition chat_final (created_at : jsstring) (content eval_count : value)
  : value :=
  obj [("model", VStr jiutian_lan);
       ("created_at", VStr created_at);
       ("message", assistant content);
       ("done", VTrue);
       ("total_duration", vN 1000000000);
       ("load_duration", vN 100000000);
       ("prompt_eval_duration", vN 200000000);
       ("eval_count", eval_count);
       ("eval_duration", vN 700000000)].

(** The [data] callback of the streaming compatible /api/chat. *)
Definition chat_on_data (h : Host) (chunk : jsstring) : M unit :=
  try_catch
    (let text := chunk in
     if startsWith text (str "data: ") then
       let jsonStr := substring 6 text in
       data <- lift (JSON_parse jsonStr) ;;
       contentDelta <- take_delta "content" data ;;
       created_at <- toISOString_now h ;;
       emit (ResWrite (SseData (chat_frame created_at contentDelta))) ;;
       finish <- lift (finish_marker data) ;;
       if (finish : bool) then
         created_at <- toISOString_now h ;;
         fullContent <- read_full ;;
         emit (ResWrite (SseData
                 (chat_final created_at (VStr [])
                    (vnat (List.length fullContent))))) ;;
         emit (ResEnd None)
       else ret tt
     else ret tt)
    (fun error => ret tt).

Definition chat_callbacks (h : Host) (ev : stream_event) : M unit :=
  match ev with
  | on_data chunk => chat_on_data h chunk
  | on_end => ret tt
  | on_error err => emit (ResEnd (Some stream_error_frame))
  end.

(** The second [app.post("/api/chat", ...)], the Ollama-compatible one. *)
Definition api_chat_ollama (h : Host) (body : value) : M unit :=
  try_catch
    (model <- lift (get body "model") ;;
     messages <- lift (get body "messages") ;;
     stream0 <- lift (get body "stream") ;;
     let stream := default_to VTrue stream0 in
     options0 <- lift (get body "options") ;;
     let options := default_to (VObj []) options0 in
     if negb (strict_eq_str model jiutian_lan) then
       emit (ResStatus 404) ;;
       emit (ResJson (model_not_found model))
     else
       temperature <- lift (get options "temperature") ;;
       top_p <- lift (get options "top_p") ;;
       let jiutianParams :=
         obj [("model", VStr jiutian_lan);
              ("messages", messages);
              ("temperature", or_else temperature (VNum num_0_7));
              ("top_p", or_else top_p (VNum num_0_9));
              ("stream", stream)] in
       jwtToken <- generateToken h (JIUTIAN_API_KEY h) 3600 ;;
       if truthy stream then
         setHeaders_sse ;;
         response <- axios_post_stream h chat_completions_url jiutianParams
                       jwtToken ;;
         for_each (chat_callbacks h) response
       else
         result <- axios_post h chat_completions_url jiutianParams jwtToken ;;
         choices <- lift (get result "choices") ;;
         content <-
           (if truthy choices then
              len <- lift (get choices "length") ;;
              if ToNumber_gt0 len then
                first <- lift (get_idx choices 0) ;;
                msg <- lift (get first "message") ;;
                if truthy msg then
                  c <- lift (get msg "content") ;;
                  if truthy c then ret c else ret (VStr [])
                else ret (VStr [])
              else ret (VStr [])
            else ret (VStr [])) ;;
         created_at <- toISOString_now h ;;
         eval_count <- lift (get content "length") ;;
         emit (ResJson (chat_final created_at content eval_count)))
    (fun error =>
       emit (ResStatus 500) ;;
       emit (ResJson (obj [("error", VStr msg_chat_failed);
                           ("detail", VStr (message error))]))).

(** [app.get("/health", ...)] *)
Definition health (h : Host) (body : value) : M unit :=
  timestamp <- toISOString_now h ;;
  emit (ResJson (obj [("status", VStr (str "ok"));
                      ("timestamp", VStr timestamp)])).

(* ------------------------------------------------------------------ *)
(** *** Sessions *)

(** A streaming session: the callbacks of the route run on the events of the
    upstream stream, in order, from the state in which they were
    registered. *)
Definition generate_session (h : Host) (prompt : value)
    (events : list stream_event) (w : world) : world :=
  snd (for_each (generate_callbacks h prompt) events w).

Definition chat_session (h : Host) (events : list stream_event) (w : world)
  : world :=
  snd (for_each (chat_callbacks h) events w).

(** The frame a chunk decodes to: the chunk starts with the event prefix and
    the rest is a JSON text. *)
Definition decode (chunk : jsstring) : option value :=
  if startsWith chunk (str "data: ") then Json.parse (substring 6 chunk)
  else None.

(** The chunk is a frame whose delta carries the finish status. *)
Definition finish_frame (chunk : jsstring) : bool :=
  match decode chunk with
  | Some data =>
      match finish_marker data with
      | Ok true => true
      | _ => false
      end
  | None => false
  end.


(** [generateToken] succeeds on this key: it splits at a dot and the part
    after the first dot is not empty. *)
Definition mintable (apiKey : option jsstring) : bool :=
  match apiKey with
  | Some key =>
      match nth_error (split_dot key) 1 with
      | Some (_ :: _) => true
      | _ => false
      end
  | None => false
  end.

(* ------------------------------------------------------------------ *)
(** *** The router *)

Record route := mkRoute {
  route_method : method;
  route_path : jsstring;
  route_handler : Host -> value -> M unit
}.

(** The routes in the order [app.js] registers them. *)
Definition routes : list route :=
  [ mkRoute POST (str "/api/completions") api_completions;
    mkRoute POST (str "/api/chat") api_chat;
    mkRoute GET (str "/api/tags") api_tags;
    mkRoute POST (str "/api/generate") api_generate;
    mkRoute POST (str "/api/chat") api_chat_ollama;
    mkRoute GET (str "/health") health ].

Definition matches (m : method) (path : jsstring) (r : route) : bool :=
  method_eqb (route_method r) m && str_eqb (route_path r) path.

(** Express hands a request to the first matching route; none of the
    handlers calls [next], so later matches never run.  With no match the
    framework answers 404 itself. *)
Definition dispatch (h : Host) (m : method) (path : jsstring) (body : value)
  : M unit :=
  match find (matches m path) routes with
  | Some r => route_handler r h body
  | None => emit (ResStatus 404) ;; emit (ResEnd None)
  end.

(** One request served from a fresh state. *)
Definition serve (h : Host) (m : method) (path : jsstring) (body : value)
  : world :=
  snd (dispatch h m path body world0).

End Relay.

(* ================================================================== *)
(** ** Concrete engines, hosts and inputs *)

(** An engine to run the program on concrete inputs.  The runs below print
    no number, convert no string to a number and read no stack; every date
    prints as the same instant. *)
Definition sample_engine : Engine := {|
  Number_toString := fun n => str "0";
  StringToNumber_gt0 := fun s => false;
  Date_toISOString := fun ms => str "2025-05-20T13:21:37.000Z";
  HMAC_SHA256 := fun key header payload => str "signature";
  native_message := fun e => str "native error";
  stack_of := fun e => str "stack"
|}.

(** A configured host whose upstream answers every streaming call with the
    given chunks, one [data] event each, and every other call with [data]. *)
Definition sample_host (chunks : list jsstring) (data : value) : Host := {|
  Date_now := fun n => (1747747297000 + Z.of_nat n)%Z;
  JIUTIAN_API_KEY := Some (str "key-id.signing-key");
  NODE_ENV := Some (str "production");
  upstream_stream := fun _ => Stream (List.map on_data chunks);
  upstream_json := fun _ => JsonResolved data
|}.

(** The same host without its API key. *)
Definition unconfigured_host : Host := {|
  Date_now := fun n => (1747747297000 + Z.of_nat n)%Z;
  JIUTIAN_API_KEY := None;
  NODE_ENV := Some (str "production");
  upstream_stream := fun _ => Stream [];
  upstream_json := fun _ => JsonResolved VNull
|}.

(** One event of the provider's stream as it is framed on the wire. *)
Definition sse_event (json : jsstring) : jsstring :=
  str "data: " ++ json ++ [10; 10]%N.

(** A delta with text, as the provider sends it. *)
Definition upstream_delta (text : string) : jsstring :=
  sse_event
    (dq "{'created':1725502748,'model':'jiutian-lan','choices':[{'delta':{'index':0,'text':'"
       ++ str text
       ++ dq "','type':'text','status':'init'}}],'object':'chat.completion.chunk'}").

(** The delta that carries the finish status. *)
Definition upstream_finish : jsstring :=
  sse_event
    (dq "{'created':1725502748,'usage':{'completion_tokens':6,'prompt_tokens':15,'total_tokens':21},'model':'jiutian-lan','choices':[{'delta':{'finish_reason':'stop','index':0,'type':'text','status':'finish'}}],'object':'chat.completion.chunk'}").

Definition scenario_deltas : list jsstring :=
  [upstream_delta "2"; upstream_delta "*"; upstream_delta "3";
   upstream_delta "="; upstream_delta "6"].

Definition scenario_chunks : list jsstring :=
  scenario_deltas ++ [upstream_finish].

Definition scenario_prompt : value := VStr (str "2*3=?").

Definition scenario_body : value :=
  obj [("model", VStr jiutian_lan); ("prompt", scenario_prompt);
       ("stream", VTrue)].


(** The chat deltas of the provider, for the chat routes. *)
Definition upstream_chat_delta (content : string) : jsstring :=
  sse_event
    (dq "{'model':'jiutian-lan','choices':[{'delta':{'index':0,'role':'assistant','content':'"
       ++ str content
       ++ dq "','type':'text','status':'init'}}],'object':'chat.completion.chunk'}").

Definition chat_chunks : list jsstring :=
  [upstream_chat_delta "Hel"; upstream_chat_delta "lo"; upstream_finish].

(** A streaming chat request for a model the proxy does not front. *)
Definition other_model_chat_body : value :=
  obj [("model", VStr (str "other-model"));
       ("messages",
        VArr [obj [("role", VStr (str "user"));
                   ("content", VStr (str "hello"))]]);
       ("stream", VTrue)].

(** A streaming completion request. *)
Definition streaming_body : value :=
  obj [("model", VStr jiutian_lan); ("prompt", VStr (str "2*3=?"));
       ("temperature", VNum (mkNum false 1 (-1)));
       ("stream", VTrue)].


(** What the first delta of the scenario decodes to. *)
Definition first_delta_data : value :=
  Eval vm_compute in
    match decode (upstream_delta "2") with
    | Some data => data
    | None => VNull
    end.


(** The request of the model-mismatch scenario. *)
Definition other_model_body : value :=
  obj [("model", VStr (str "other-model")); ("prompt", VStr (str "x"))].

(** A content frame as the specification words it:
    [{response: text, done: false}]. *)
Definition content_frame_of (text : string) (p : payload) : Prop :=
  exists frame,
    p = SseData frame /\
    json_field frame "response" = Some (VStr (str text)) /\
    json_field frame "done" = Some VFalse.

(** A terminal frame as the specification words it:
    [{response: "", done: true, eval_count, prompt_eval_count}]. *)
Definition terminal_frame_of (eval_count prompt_eval_count : nat)
    (p : payload) : Prop :=
  exists frame,
    p = SseData frame /\
    json_field frame "response" = Some (VStr []) /\
    json_field frame "done" = Some VTrue /\
    json_field frame "eval_count" = Some (vnat eval_count) /\
    json_field frame "prompt_eval_count" = Some (vnat prompt_eval_count).

(** The scenario of the specification for the streaming /api/generate: five
    content frames, then one terminal frame counting 5 and 9, and nothing
    else. *)
Definition scenario_as_specified (received : list payload) : Prop :=
  exists p1 p2 p3 p4 p5 last,
    received = [p1; p2; p3; p4; p5; last] /\
    content_frame_of "2" p1 /\ content_frame_of "*" p2 /\
    content_frame_of "3" p3 /\ content_frame_of "=" p4 /\
    content_frame_of "6" p5 /\
    terminal_frame_of 5 9 last.


(** The frame closes the stream: its [done] field is true. *)
Definition is_terminal (frame : value) : bool :=
  match json_field frame "done" with
  | Some (VBool true) => true
  | _ => false
  end.

Definition has_no_dot (s : jsstring) : bool :=
  forallb (fun c => negb (N.eqb c 46)) s.

(* ================================================================== *)
(** ** The logging middleware *)

Record request := mkRequest {
  req_method : method;
  req_url : jsstring;
  req_body : value
}.

(** What [console.log] is called with: the request line
    [`[${timestamp}] ${req.method} ${req.url}`], the request body after the
    label, and the response shown after its label. *)
Inductive log_line :=
| LogRequest (timestamp : jsstring) (m : method) (url : jsstring)
| LogBody (requestBody : value)
| LogResponse (shown : jsstring).

(** [{ ...v }]: the own enumerable properties of [v], read with [own]. *)
Definition spread (v : value) : list (jsstring * value) :=
  match v with
  | VObj props => props
  | VArr elems =>
      combine (List.map index_key (seq 0 (List.length elems))) elems
  | VStr s =>
      combine (List.map index_key (seq 0 (List.length s)))
              (List.map (fun c => VStr [c]) s)
  | _ => []
  end.

(** [delete o[key]] *)
Definition delete_property (key : string) (props : list (jsstring * value))
  : list (jsstring * value) :=
  filter (fun kv => negb (str_eqb (fst kv) (str key))) props.

(** [loggerMiddleware] up to its call of [next]: the two lines it logs. *)
Definition loggerMiddleware (js : Engine) (h : Host) (req : request)
  : M (list log_line) :=
  timestamp <- toISOString_now js h ;;
  let requestBody := VObj (delete_property "apiKey" (spread (req_body req))) in
  ret [LogRequest timestamp (req_method req) (req_url req);
       LogBody requestBody].

(** [`${body.substring(0, 200)}${body.length > 200 ? '...' : ''}`] *)
Definition shown_response (body : jsstring) : jsstring :=
  firstn 200 body
  ++ (if Nat.ltb 200 (List.length body) then str "..." else []).

(** The [res.send] the middleware installs: what it logs before it hands
    [body] to the original [res.send]. *)
Definition logged_send (req_body : value) (body : jsstring)
  : outcome (list log_line) :=
  stream <- get req_body "stream" ;;
  if negb (truthy stream) then ret [LogResponse (shown_response body)]
  else ret [].

(* ================================================================== *)
(** ** Notions the properties below are stated with *)

(** The router over any table of routes. *)
Definition dispatch_in (rs : list route) (h : Host) (m : method)
    (path : jsstring) (body : value) : M unit :=
  match find (matches m path) rs with
  | Some r => route_handler r h body
  | None => emit (ResStatus 404) ;; emit (ResEnd None)
  end.

(** The table of [app.js] without the second registration of
    POST /api/chat. *)
Definition routes_without_second_chat (js : Engine) : list route :=
  [ mkRoute POST (str "/api/completions") (api_completions js);
    mkRoute POST (str "/api/chat") (api_chat js);
    mkRoute GET (str "/api/tags") (api_tags js);
    mkRoute POST (str "/api/generate") (api_generate js);
    mkRoute GET (str "/health") (health js) ].



(** The call writes to the body of the response or ends it. *)
Definition body_call (e : effect) : bool :=
  match e with
  | ResWrite _ | ResEnd _ => true
  | _ => false
  end.

(** What /api/generate answers when the request is not streamed, once the
    provider's data are there: the part of the handler after its
    [axios.post]. *)
Definition generate_answer (js : Engine) (h : Host) (prompt result : value)
  : M unit :=
  choices <- lift (get result "choices") ;;
  responseText <-
    (if truthy choices then
       len <- lift (get choices "length") ;;
       if ToNumber_gt0 js len then
         first <- lift (get_idx choices 0) ;;
         txt <- lift (get first "text") ;;
         ret (or_else txt (VStr []))
       else ret (VStr [])
     else ret (VStr [])) ;;
  created_at <- toISOString_now js h ;;
  prompt_eval_count <- lift (get prompt "length") ;;
  eval_count <- lift (get responseText "length") ;;
  emit (ResJson (generate_final created_at responseText
                   prompt_eval_count eval_count)).

(** The request the handler of /api/generate sends upstream. *)
Definition jiutian_params (prompt temperature top_p stream : value) : value :=
  obj [("model", VStr jiutian_lan);
       ("prompt", prompt);
       ("temperature", or_else temperature (VNum num_0_7));
       ("top_p", or_else top_p (VNum num_0_9));
       ("history", VArr []);
       ("stream", stream)].

(** The body of the 500 answer of /api/generate. *)
Definition generate_failure (js : Engine) (e : error) : value :=
  obj [("error", VStr msg_generate_failed);
       ("detail", VStr (message js e))].


(** The value is neither undefined nor null. *)
Definition defined (v : value) : bool :=
  match v with
  | VUndefined | VNull => false
  | _ => true
  end.

(** A JSON text for this value ends at its own last character (a bracket, a
    quote or the last letter of a literal), unlike a numeral. *)
Definition self_delimited (v : value) : bool :=
  match v with
  | VNum _ => false
  | _ => true
  end.

(** A configured host whose upstream answers a streaming call with the
    given events and any other call with [data]. *)
Definition stream_host (events : list stream_event) (data : value) : Host := {|
  Date_now := fun n => (1747747297000 + Z.of_nat n)%Z;
  JIUTIAN_API_KEY := Some (str "key-id.signing-key");
  NODE_ENV := Some (str "development");
  upstream_stream := fun _ => Stream events;
  upstream_json := fun _ => JsonResolved data
|}.

(** A configured host whose upstream rejects every call. *)
Definition rejecting_host (e : error) : Host := {|
  Date_now := fun n => (1747747297000 + Z.of_nat n)%Z;
  JIUTIAN_API_KEY := Some (str "key-id.signing-key");
  NODE_ENV := Some (str "development");
  upstream_stream := fun _ => StreamRejected e;
  upstream_json := fun _ => JsonRejected e
|}.

(** The provider's answer to a completion that is not streamed. *)
Definition completion_data : value :=
  obj [("choices",
        VArr [obj [("text", VStr (str "6")); ("index", vnat 0);
                   ("finish_reason", VStr (str "stop"))]]);
       ("model", VStr jiutian_lan)].

(** Requests to /api/generate that are not streamed. *)
Definition generate_body (prompt : value) : value :=
  obj [("model", VStr jiutian_lan); ("prompt", prompt);
       ("stream", VFalse); ("system", VStr (str "be brief"));
       ("options", obj [("temperature", vnat 0)])].

(* ================================================================== *)
(** * Properties *)

(** ** The parser never runs out of fuel *)

Module JsonFacts.
Import Json.

Lemma skip_ws_length (s : jsstring) :
  List.length (skip_ws s) <= List.length s.
Proof.
  induction s as [|c r IH]; simpl; [lia|].
  destruct (is_ws c); simpl; lia.
Qed.

Lemma parse_chars_length (s t rest : jsstring) :
  parse_chars s = Some (t, rest) -> List.length rest < List.length s.
Proof.
  remember (List.length s) as n eqn:Hn.
  revert s t rest Hn.
  induction n as [n IH] using lt_wf_ind.
  intros s t rest Hn H. subst n.
  destruct s as [|c r]; simpl in H; [discriminate|].
  destruct (N.eqb c 34).
  { inversion H; subst; simpl; lia. }
  destruct (N.eqb c 92).
  - destruct r as [|e r1]; [discriminate|].
    destruct (N.eqb e 117).
    + destruct r1 as [|a [|b [|c' [|d r2]]]]; try discriminate.
      destruct (hex4 a b c' d); [|discriminate].
      destruct (parse_chars r2) as [[t' rest']|] eqn:E; [|discriminate].
      inversion H; subst.
      apply (IH (List.length r2)) in E; simpl in *; try lia; reflexivity.
    + destruct (unescape e); [|discriminate].
      destruct (parse_chars r1) as [[t' rest']|] eqn:E; [|discriminate].
      inversion H; subst.
      apply (IH (List.length r1)) in E; simpl in *; try lia; reflexivity.
  - destruct (N.ltb c 32); [discriminate|].
    destruct (parse_chars r) as [[t' rest']|] eqn:E; [|discriminate].
    inversion H; subst.
    apply (IH (List.length r)) in E; simpl in *; try lia; reflexivity.
Qed.

Lemma take_digits_length (s : jsstring) :
  List.length (snd (take_digits s)) + List.length (fst (take_digits s))
  = List.length s.
Proof.
  induction s as [|c r IH]; simpl; [reflexivity|].
  destruct (is_digit c); simpl; [|lia].
  destruct (take_digits r); simpl in *; lia.
Qed.

Lemma parse_fraction_length (s rest : jsstring) (ds : list N) :
  parse_fraction s = Some (ds, rest) -> List.length rest <= List.length s.
Proof.
  unfold parse_fraction. destruct s as [|c r]; intros H.
  - inversion H; subst; simpl; lia.
  - destruct (N.eqb c 46).
    + pose proof (take_digits_length r) as L.
      destruct (take_digits r) as [[|d ds'] rest']; [discriminate|].
      inversion H; subst; simpl in *; lia.
    + inversion H; subst; simpl; lia.
Qed.

Lemma parse_exponent_length (s rest : jsstring) (e : Z) :
  parse_exponent s = Some (e, rest) -> List.length rest <= List.length s.
Proof.
  unfold parse_exponent. destruct s as [|c r]; intros H.
  - inversion H; subst; simpl; lia.
  - destruct (N.eqb c 101 || N.eqb c 69).
    + destruct r as [|c1 r'].
      * simpl in H. discriminate.
      * destruct (N.eqb c1 45).
        { pose proof (take_digits_length r') as L'.
          destruct (take_digits r') as [[|d ds'] rest']; [discriminate|].
          inversion H; subst; simpl in *; lia. }
        destruct (N.eqb c1 43).
        { pose proof (take_digits_length r') as L'.
          destruct (take_digits r') as [[|d ds'] rest']; [discriminate|].
          inversion H; subst; simpl in *; lia. }
        pose proof (take_digits_length (c1 :: r')) as L'.
        destruct (take_digits (c1 :: r')) as [[|d ds'] rest']; [discriminate|].
        inversion H; subst; simpl in *; lia.
    + inversion H; subst; simpl; lia.
Qed.

Lemma parse_number_length (s rest : jsstring) (n : number) :
  parse_number s = Some (n, rest) -> List.length rest < List.length s.
Proof.
  unfold parse_number.
  assert (G : forall sign s1,
             List.length s1 <= List.length s ->
             match take_digits s1 with
             | ([], _) => None
             | (d :: more, s2) =>
                 if N.eqb d 0 && negb (Nat.eqb (List.length more) 0) then None
                 else
                   match parse_fraction s2 with
                   | None => None
                   | Some (frac, s3) =>
                       match parse_exponent s3 with
                       | None => None
                       | Some (e, s4) =>
                           Some (mkNum sign (digits_value ((d :: more) ++ frac))
                                   (e - Z.of_nat (List.length frac)), s4)
                       end
                   end
             end = Some (n, rest) ->
             List.length rest < List.length s).
  { intros sign s1 Hs1 H.
    pose proof (take_digits_length s1) as L.
    destruct (take_digits s1) as [[|d more] s2]; [discriminate|].
    destruct (N.eqb d 0 && negb (Nat.eqb (List.length more) 0)); [discriminate|].
    destruct (parse_fraction s2) as [[frac s3]|] eqn:F; [|discriminate].
    destruct (parse_exponent s3) as [[e s4]|] eqn:X; [|discriminate].
    apply parse_fraction_length in F. apply parse_exponent_length in X.
    inversion H; subst; simpl in *; lia. }
  destruct s as [|c r]; intros H.
  - apply (G false []); [simpl; lia|exact H].
  - destruct (N.eqb c 45).
    + apply (G true r); [simpl; lia|exact H].
    + apply (G false (c :: r)); [simpl; lia|exact H].
Qed.

Lemma strip_prefix_length (p s rest : jsstring) :
  strip_prefix p s = Some rest ->
  List.length rest + List.length p = List.length s.
Proof.
  revert s; induction p as [|x p IH]; intros s H; simpl in H.
  - inversion H; subst; simpl; lia.
  - destruct s as [|c s']; [discriminate|].
    destruct (N.eqb x c); [|discriminate].
    apply IH in H. simpl; lia.
Qed.

Lemma literal_length (word : string) (v v' : value) (s rest : jsstring) :
  word <> EmptyString ->
  literal word v s = POk v' rest -> List.length rest < List.length s.
Proof.
  unfold literal. intros Hw H.
  destruct (strip_prefix (str word) s) as [r|] eqn:E; [|discriminate].
  inversion H; subst. apply strip_prefix_length in E.
  destruct word; [congruence|]. simpl in E. lia.
Qed.

Local Arguments literal : simpl never.
Local Arguments parse_number : simpl never.
Local Arguments parse_chars : simpl never.
Local Arguments skip_ws : simpl never.

Tactic Notation "ws_case" constr(r) "as" ident(c) ident(r') :=
  let L := fresh "L" in
  let E := fresh "E" in
  pose proof (skip_ws_length r) as L;
  destruct (skip_ws r) as [|c r'] eqn:E; [discriminate|]; simpl in L.

(** Every successful parse consumes at least one character. *)
Lemma parse_consumes (fuel : nat) :
  (forall s v rest, parse_value fuel s = POk v rest ->
                    List.length rest < List.length s) /\
  (forall s vs rest, parse_elements fuel s = POk vs rest ->
                     List.length rest < List.length s) /\
  (forall s kvs rest, parse_members fuel s = POk kvs rest ->
                      List.length rest < List.length s).
Proof.
  induction fuel as [|f [IHv [IHe IHm]]].
  { repeat split; intros; simpl in *; discriminate. }
  repeat split.
  - intros s v rest H. destruct s as [|c r]; simpl in H; [discriminate|].
    destruct (N.eqb c 123).
    { ws_case r as n l. destruct (N.eqb n 125).
      - inversion H; subst; simpl; lia.
      - destruct (parse_members f (n :: l)) as [kvs rest'| |] eqn:M;
          try discriminate.
        inversion H; subst. apply IHm in M. simpl in *; lia. }
    destruct (N.eqb c 91).
    { ws_case r as n l. destruct (N.eqb n 93).
      - inversion H; subst; simpl; lia.
      - destruct (parse_elements f (n :: l)) as [vs rest'| |] eqn:M;
          try discriminate.
        inversion H; subst. apply IHe in M. simpl in *; lia. }
    destruct (N.eqb c 34).
    { destruct (parse_chars r) as [[t rest']|] eqn:P; [|discriminate].
      inversion H; subst. apply parse_chars_length in P. simpl; lia. }
    destruct (N.eqb c 116).
    { apply literal_length in H; [exact H|discriminate]. }
    destruct (N.eqb c 102).
    { apply literal_length in H; [exact H|discriminate]. }
    destruct (N.eqb c 110).
    { apply literal_length in H; [exact H|discriminate]. }
    destruct (parse_number (c :: r)) as [[n rest']|] eqn:P; [|discriminate].
    inversion H; subst. apply parse_number_length in P. exact P.
  - intros s vs rest H. simpl in H.
    destruct (parse_value f s) as [v r| |] eqn:V; try discriminate.
    apply IHv in V. ws_case r as n l.
    destruct (N.eqb n 44).
    + pose proof (skip_ws_length l) as L2.
      destruct (parse_elements f (skip_ws l)) as [vs' rest'| |] eqn:M;
        try discriminate.
      inversion H; subst. apply IHe in M. lia.
    + destruct (N.eqb n 93); [|discriminate].
      inversion H; subst. lia.
  - intros s kvs rest H. destruct s as [|c r]; simpl in H; [discriminate|].
    destruct (N.eqb c 34); [|discriminate].
    destruct (parse_chars r) as [[k r1]|] eqn:P; [|discriminate].
    apply parse_chars_length in P. ws_case r1 as n l.
    destruct (N.eqb n 58); [|discriminate].
    pose proof (skip_ws_length l) as L2.
    destruct (parse_value f (skip_ws l)) as [v r3| |] eqn:V; try discriminate.
    apply IHv in V. ws_case r3 as n0 l0.
    destruct (N.eqb n0 44).
    + pose proof (skip_ws_length l0) as L4.
      destruct (parse_members f (skip_ws l0)) as [kvs' rest'| |] eqn:M;
        try discriminate.
      inversion H; subst. apply IHm in M. simpl; lia.
    + destruct (N.eqb n0 125); [|discriminate].
      inversion H; subst. simpl; lia.
Qed.

(** Two steps of fuel per character, and one, are enough at every level of
    the descent. *)
Lemma parse_fuel (fuel : nat) :
  (forall s, 2 * List.length s + 1 <= fuel -> parse_value fuel s <> PFuel) /\
  (forall s, 2 * List.length s + 2 <= fuel -> parse_elements fuel s <> PFuel) /\
  (forall s, 2 * List.length s + 2 <= fuel -> parse_members fuel s <> PFuel).
Proof.
  induction fuel as [|f [IHv [IHe IHm]]].
  { repeat split; intros; lia. }
  repeat split.
  - intros s Hf. destruct s as [|c r]; simpl; [discriminate|].
    simpl in Hf.
    destruct (N.eqb c 123).
    { pose proof (skip_ws_length r) as L.
      destruct (skip_ws r) as [|c' r'] eqn:E; [discriminate|].
      destruct (N.eqb c' 125); [discriminate|].
      specialize (IHm (c' :: r')).
      destruct (parse_members f (c' :: r')); try discriminate.
      exfalso; apply IHm; [simpl in *; lia | reflexivity]. }
    destruct (N.eqb c 91).
    { pose proof (skip_ws_length r) as L.
      destruct (skip_ws r) as [|c' r'] eqn:E; [discriminate|].
      destruct (N.eqb c' 93); [discriminate|].
      specialize (IHe (c' :: r')).
      destruct (parse_elements f (c' :: r')); try discriminate.
      exfalso; apply IHe; [simpl in *; lia | reflexivity]. }
    destruct (N.eqb c 34).
    { destruct (parse_chars r) as [[t rest']|]; discriminate. }
    unfold literal.
    destruct (N.eqb c 116).
    { destruct (strip_prefix (str "true") (c :: r)); discriminate. }
    destruct (N.eqb c 102).
    { destruct (strip_prefix (str "false") (c :: r)); discriminate. }
    destruct (N.eqb c 110).
    { destruct (strip_prefix (str "null") (c :: r)); discriminate. }
    destruct (parse_number (c :: r)) as [[n rest']|]; discriminate.
  - intros s Hf. simpl.
    specialize (IHv s).
    destruct (parse_value f s) as [v r| |] eqn:V; try discriminate.
    + apply (proj1 (parse_consumes f)) in V.
      pose proof (skip_ws_length r) as L.
      destruct (skip_ws r) as [|c r'] eqn:E; [discriminate|].
      destruct (N.eqb c 44).
      * pose proof (skip_ws_length r') as L2.
        specialize (IHe (skip_ws r')).
        destruct (parse_elements f (skip_ws r')); try discriminate.
        exfalso; apply IHe; [simpl in *; lia | reflexivity].
      * destruct (N.eqb c 93); discriminate.
    + exfalso; apply IHv; [simpl in *; lia | reflexivity].
  - intros s Hf. destruct s as [|c r]; simpl; [discriminate|].
    simpl in Hf.
    destruct (N.eqb c 34); [|discriminate].
    destruct (parse_chars r) as [[k r1]|] eqn:P; [|discriminate].
    apply parse_chars_length in P.
    pose proof (skip_ws_length r1) as L.
    destruct (skip_ws r1) as [|c1 r2] eqn:E; [discriminate|].
    destruct (N.eqb c1 58); [|discriminate].
    pose proof (skip_ws_length r2) as L2.
    specialize (IHv (skip_ws r2)).
    destruct (parse_value f (skip_ws r2)) as [v r3| |] eqn:V; try discriminate.
    + apply (proj1 (parse_consumes f)) in V.
      pose proof (skip_ws_length r3) as L3.
      destruct (skip_ws r3) as [|c3 r4] eqn:E3; [discriminate|].
      destruct (N.eqb c3 44).
      * pose proof (skip_ws_length r4) as L4.
        specialize (IHm (skip_ws r4)).
        destruct (parse_members f (skip_ws r4)); try discriminate.
        exfalso; apply IHm; [simpl in *; lia | reflexivity].
      * destruct (N.eqb c3 125); discriminate.
    + exfalso; apply IHv; [simpl in *; lia | reflexivity].
Qed.

(** [JSON.parse] fails only on text that is not JSON: the descent is never
    cut short. *)
Lemma parse_document_total (text : jsstring) : parse_document text <> PFuel.
Proof.
  unfold parse_document, fuel_for.
  apply (proj1 (parse_fuel _)). lia.
Qed.

End JsonFacts.

(** ** The data callbacks in closed form *)

Section Callbacks.

Variable js : Engine.

Lemma generate_on_data_eq (h : Host) (prompt : value) (c : jsstring)
    (w : world) :
  generate_on_data js h prompt c w =
  (Ok tt,
   match decode c with
   | None => w
   | Some data =>
       match delta_field js "text" data with
       | Throw _ => w
       | Ok found =>
           let text := match found with
                       | Some t => ToString js t
                       | None => []
                       end in
           let responseText := match found with
                               | Some t => t
                               | None => VStr []
                               end in
           let frame :=
             ResWrite (SseData (generate_frame (created_at_reading js h (ticks w))
                                  responseText)) in
           match finish_marker data with
           | Ok true =>
               match get prompt "length" with
               | Ok n =>
                   mkWorld
                     (trace w ++
                      [frame;
                       ResWrite
                         (SseData
                            (generate_final (created_at_reading js h (S (ticks w))) (VStr []) n
                               (vnat (List.length (full w ++ text)))));
                       ResEnd None])
                     (S (S (ticks w))) (full w ++ text)
               | Throw _ =>
                   mkWorld (trace w ++ [frame]) (S (S (ticks w)))
                     (full w ++ text)
               end
           | _ => mkWorld (trace w ++ [frame]) (S (ticks w)) (full w ++ text)
           end
       end
   end).
Proof.
  unfold generate_on_data, decode, try_catch, JSON_parse, take_delta, lift.
  destruct (startsWith c (str "data: ")); [|reflexivity].
  cbn [bind M_monad].
  destruct (Json.parse (substring 6 c)) as [data|]; [|reflexivity].
  destruct (delta_field js "text" data) as [[t|]|e]; [| |reflexivity];
    destruct (finish_marker data) as [[|]|];
    try destruct (get prompt "length");
    unfold emit, toISOString_now, now, read_full, append_full;
    cbn [bind M_monad ret trace ticks full fst snd];
    repeat rewrite <- app_assoc; rewrite ?app_nil_r; reflexivity.
Qed.

Lemma chat_on_data_eq (h : Host) (c : jsstring) (w : world) :
  chat_on_data js h c w =
  (Ok tt,
   match decode c with
   | None => w
   | Some data =>
       match delta_field js "content" data with
       | Throw _ => w
       | Ok found =>
           let text := match found with
                       | Some t => ToString js t
                       | None => []
                       end in
           let contentDelta := match found with
                               | Some t => t
                               | None => VStr []
                               end in
           let frame :=
             ResWrite (SseData (chat_frame (created_at_reading js h (ticks w)) contentDelta)) in
           match finish_marker data with
           | Ok true =>
               mkWorld
                 (trace w ++
                  [frame;
                   ResWrite
                     (SseData
                        (chat_final (created_at_reading js h (S (ticks w))) (VStr [])
                           (vnat (List.length (full w ++ text)))));
                   ResEnd None])
                 (S (S (ticks w))) (full w ++ text)
           | _ => mkWorld (trace w ++ [frame]) (S (ticks w)) (full w ++ text)
           end
       end
   end).
Proof.
  unfold chat_on_data, decode, try_catch, JSON_parse, take_delta, lift.
  destruct (startsWith c (str "data: ")); [|reflexivity].
  cbn [bind M_monad].
  destruct (Json.parse (substring 6 c)) as [data|]; [|reflexivity].
  destruct (delta_field js "content" data) as [[t|]|e]; [| |reflexivity];
    destruct (finish_marker data) as [[|]|];
    unfold emit, toISOString_now, now, read_full, append_full;
    cbn [bind M_monad ret trace ticks full fst snd];
    repeat rewrite <- app_assoc; rewrite ?app_nil_r; reflexivity.
Qed.



(* ------------------------------------------------------------------ *)
(** *** One chunk *)

Lemma generate_frame_not_terminal (t : jsstring) (r : value) :
  is_terminal (generate_frame t r) = false.
Proof. reflexivity. Qed.

Lemma chat_frame_not_terminal (t : jsstring) (r : value) :
  is_terminal (chat_frame t r) = false.
Proof. reflexivity. Qed.

Lemma generate_final_terminal (t : jsstring) (r n e : value) :
  is_terminal (generate_final t r n e) = true.
Proof. reflexivity. Qed.

Lemma chat_final_terminal (t : jsstring) (r e : value) :
  is_terminal (chat_final t r e) = true.
Proof. reflexivity. Qed.

(** A chunk that does not decode changes nothing. *)
Lemma generate_on_data_undecoded (h : Host) (prompt : value) (c : jsstring)
    (w : world) :
  decode c = None -> generate_on_data js h prompt c w = (Ok tt, w).
Proof. intros D. rewrite generate_on_data_eq, D. reflexivity. Qed.

Lemma chat_on_data_undecoded (h : Host) (c : jsstring) (w : world) :
  decode c = None -> chat_on_data js h c w = (Ok tt, w).
Proof. intros D. rewrite chat_on_data_eq, D. reflexivity. Qed.



(** A chunk without the finish status writes at most one frame, and that
    frame is not terminal. *)
Lemma generate_on_data_content (h : Host) (prompt : value) (c : jsstring)
    (w : world) :
  finish_frame c = false ->
  exists frames,
    trace (snd (generate_on_data js h prompt c w))
    = trace w ++ List.map write_frame frames /\
    Forall (fun f => is_terminal f = false) frames.
Proof.
  intros F. rewrite generate_on_data_eq. unfold finish_frame in F. simpl.
  destruct (decode c) as [data|];
    [|exists []; simpl; now rewrite app_nil_r].
  destruct (delta_field js "text" data) as [found|];
    [|exists []; simpl; now rewrite app_nil_r].
  destruct (finish_marker data) as [[|]|]; try discriminate;
    eexists [_]; (split; [reflexivity|]);
    repeat constructor.
Qed.

Lemma chat_on_data_content (h : Host) (c : jsstring) (w : world) :
  finish_frame c = false ->
  exists frames,
    trace (snd (chat_on_data js h c w)) = trace w ++ List.map write_frame frames /\
    Forall (fun f => is_terminal f = false) frames.
Proof.
  intros F. rewrite chat_on_data_eq. unfold finish_frame in F. simpl.
  destruct (decode c) as [data|];
    [|exists []; simpl; now rewrite app_nil_r].
  destruct (delta_field js "content" data) as [found|];
    [|exists []; simpl; now rewrite app_nil_r].
  destruct (finish_marker data) as [[|]|]; try discriminate;
    eexists [_]; (split; [reflexivity|]);
    repeat constructor.
Qed.



(* ------------------------------------------------------------------ *)
(** *** Sessions *)

Lemma generate_session_nil (h : Host) (prompt : value) (w : world) :
  generate_session js h prompt [] w = w.
Proof. reflexivity. Qed.

Lemma generate_session_data (h : Host) (prompt : value) (c : jsstring)
    (events : list stream_event) (w : world) :
  generate_session js h prompt (on_data c :: events) w
  = generate_session js h prompt events
      (snd (generate_on_data js h prompt c w)).
Proof.
  unfold generate_session. cbn [for_each bind M_monad generate_callbacks].
  rewrite generate_on_data_eq. reflexivity.
Qed.

Lemma chat_session_data (h : Host) (c : jsstring)
    (events : list stream_event) (w : world) :
  chat_session js h (on_data c :: events) w
  = chat_session js h events (snd (chat_on_data js h c w)).
Proof.
  unfold chat_session. cbn [for_each bind M_monad chat_callbacks].
  rewrite chat_on_data_eq. reflexivity.
Qed.





(** Chunks without the finish status only write frames that are not
    terminal. *)
Lemma generate_session_content (h : Host) (prompt : value)
    (chunks : list jsstring) (w : world) :
  Forall (fun c => finish_frame c = false) chunks ->
  exists frames,
    trace (generate_session js h prompt (List.map on_data chunks) w)
    = trace w ++ List.map write_frame frames /\
    Forall (fun f => is_terminal f = false) frames.
Proof.
  intros F; revert w; induction F as [|c cs Hc _ IH]; intros w.
  - exists []; simpl. now rewrite app_nil_r.
  - simpl. rewrite generate_session_data.
    destruct (generate_on_data_content h prompt c w Hc) as [f1 [E1 N1]].
    destruct (IH (snd (generate_on_data js h prompt c w))) as [f2 [E2 N2]].
    exists (f1 ++ f2). split.
    + rewrite E2, E1, List.map_app, app_assoc. reflexivity.
    + apply Forall_app; auto.
Qed.

Lemma chat_session_content (h : Host) (chunks : list jsstring) (w : world) :
  Forall (fun c => finish_frame c = false) chunks ->
  exists frames,
    trace (chat_session js h (List.map on_data chunks) w)
    = trace w ++ List.map write_frame frames /\
    Forall (fun f => is_terminal f = false) frames.
Proof.
  intros F; revert w; induction F as [|c cs Hc _ IH]; intros w.
  - exists []; simpl. now rewrite app_nil_r.
  - simpl. rewrite chat_session_data.
    destruct (chat_on_data_content h c w Hc) as [f1 [E1 N1]].
    destruct (IH (snd (chat_on_data js h c w))) as [f2 [E2 N2]].
    exists (f1 ++ f2). split.
    + rewrite E2, E1, List.map_app, app_assoc. reflexivity.
    + apply Forall_app; auto.
Qed.

(* ------------------------------------------------------------------ *)
(** *** What the client receives *)

Lemma delivered_trace_app (t1 t2 : list effect) :
  existsb ends t1 = false ->
  delivered_trace (t1 ++ t2)
  = delivered_trace t1 ++ delivered_trace t2.
Proof.
  induction t1 as [|e t1 IH]; simpl; [reflexivity|].
  destruct e; simpl; intros H; try discriminate; rewrite ?IH; auto.
Qed.

Lemma delivered_trace_frames (frames : list value) :
  delivered_trace (List.map write_frame frames) = List.map SseData frames.
Proof.
  induction frames as [|f fs IH]; simpl; [reflexivity|]. now rewrite IH.
Qed.

End Callbacks.

(* ================================================================== *)
(** ** Streaming sessions *)

Section Streaming.

Variable js : Engine.











End Streaming.

(* ================================================================== *)
(** ** Minting the credential *)

Lemma str_eqb_eq (a b : jsstring) : str_eqb a b = true <-> a = b.
Proof.
  revert b; induction a as [|x a IH]; intros [|y b]; simpl;
    try (split; [discriminate|congruence]); [tauto|].
  rewrite andb_true_iff, N.eqb_eq, IH. split.
  - intros [-> ->]; reflexivity.
  - intros E; inversion E; auto.
Qed.

Lemma split_dot_no_dot (s : jsstring) :
  has_no_dot s = true -> split_dot s = [s].
Proof.
  induction s as [|c r IH]; simpl; [reflexivity|].
  rewrite andb_true_iff, negb_true_iff. intros [-> H].
  now rewrite (IH H).
Qed.

Lemma split_dot_at_dot (a b : jsstring) :
  has_no_dot a = true -> split_dot (a ++ 46%N :: b) = a :: split_dot b.
Proof.
  induction a as [|c r IH]; simpl; [reflexivity|].
  rewrite andb_true_iff, negb_true_iff. intros [-> H].
  now rewrite (IH H).
Qed.

Section Minting.

Variable js : Engine.

(** [generateToken] in closed form: three readings of the clock and a
    token, or the error of a key that cannot be used. *)
Lemma generateToken_eq (h : Host) (apiKey : option jsstring)
    (expSeconds : Z) (w : world) :
  generateToken js h apiKey expSeconds w =
  match apiKey with
  | None => (Throw (JsError msg_invalid_api_key), w)
  | Some key =>
      let id := match split_dot key with
                | p :: _ => VStr p
                | [] => VUndefined
                end in
      match nth_error (split_dot key) 1 with
      | Some (c :: s) =>
          let claims :=
            obj [("api_key", id);
                 ("exp", vint (Date_now h (ticks w) / 1000 + expSeconds));
                 ("timestamp", vint (Date_now h (S (ticks w)) / 1000));
                 ("iat", vint (Date_now h (S (S (ticks w))) / 1000))] in
          (Ok (mkJwt token_header claims
                 (HMAC_SHA256 js (c :: s) token_header claims)),
           mkWorld (trace w) (S (S (S (ticks w)))) (full w))
      | _ =>
          (Throw (JsError msg_invalid_api_key),
           mkWorld (trace w) (S (S (ticks w))) (full w))
      end
  end.
Proof.
  unfold generateToken, try_catch.
  destruct apiKey as [key|]; [|reflexivity].
  cbn [bind M_monad now_seconds now ret].
  destruct (nth_error (split_dot key) 1) as [[|c s]|]; reflexivity.
Qed.

Lemma generateToken_mintable (h : Host) (apiKey : option jsstring)
    (expSeconds : Z) (w : world) :
  mintable apiKey = true ->
  exists jwtToken,
    generateToken js h apiKey expSeconds w
    = (Ok jwtToken, mkWorld (trace w) (S (S (S (ticks w)))) (full w)).
Proof.
  intros Mt. rewrite generateToken_eq. unfold mintable in Mt.
  destruct apiKey as [key|]; [|discriminate].
  destruct (nth_error (split_dot key) 1) as [[|c s]|]; try discriminate.
  eexists; reflexivity.
Qed.

Lemma generateToken_unmintable (h : Host) (apiKey : option jsstring)
    (expSeconds : Z) (w : world) :
  mintable apiKey = false ->
  exists n,
    generateToken js h apiKey expSeconds w
    = (Throw (JsError msg_invalid_api_key), mkWorld (trace w) n (full w)).
Proof.
  intros Mt. rewrite generateToken_eq. unfold mintable in Mt.
  destruct apiKey as [key|]; [|exists (ticks w); now destruct w].
  destruct (nth_error (split_dot key) 1) as [[|c s]|]; try discriminate;
    eexists; reflexivity.
Qed.


End Minting.

(* ================================================================== *)
(** ** Routes *)

Section Routing.

Variable js : Engine.

Lemma dispatch_completions (h : Host) (body : value) :
  dispatch js h POST (str "/api/completions") body = api_completions js h body.
Proof. reflexivity. Qed.

(** A POST to /api/chat goes to the first handler registered for it. *)
Lemma dispatch_chat (h : Host) (body : value) :
  dispatch js h POST (str "/api/chat") body = api_chat js h body.
Proof. reflexivity. Qed.

Lemma dispatch_generate (h : Host) (body : value) :
  dispatch js h POST (str "/api/generate") body = api_generate js h body.
Proof. reflexivity. Qed.

(** A base one property of which can be read lets every property be read. *)
Lemma get_defined (base v0 : value) (k0 k : string) :
  get base k0 = Ok v0 -> exists v, get base k = Ok v.
Proof.
  destruct base; simpl; intros H; try discriminate; eauto.
  - destruct (String.eqb k "length"); eauto.
  - destruct (String.eqb k "length"); eauto.
  - destruct (own (str k) props); eauto.
Qed.


Lemma for_each_pass_through (events : list stream_event) (w : world) :
  for_each pass_through events w
  = (Ok tt, mkWorld (trace w ++ List.map pass_effect events) (ticks w) (full w)).
Proof.
  revert w; induction events as [|ev evs IH]; intros w.
  - simpl. rewrite app_nil_r. now destruct w.
  - cbn [for_each bind M_monad].
    assert (E : pass_through ev w
                = (Ok tt, mkWorld (trace w ++ [pass_effect ev]) (ticks w) (full w)))
      by (destruct ev; reflexivity).
    rewrite E, IH. simpl. now rewrite <- app_assoc.
Qed.

(** The streaming forwarder in closed form. *)
Lemma handleStream_eq (h : Host) (url : jsstring) (body : value) (w : world) :
  handleStream js h url body w =
  match generateToken js h (JIUTIAN_API_KEY h) 3600 w with
  | (Throw e, w1) =>
      (Ok tt,
       mkWorld (trace w1 ++ [ResWrite (failure_frame js e); ResEnd None])
         (ticks w1) (full w1))
  | (Ok jwtToken, w1) =>
      let call := mkCall url body jwtToken in
      match upstream_stream h call with
      | StreamRejected e =>
          (Ok tt,
           mkWorld (trace w1 ++ sse_headers ++
                    [AxiosPost call true; ResWrite (failure_frame js e);
                     ResEnd None])
             (ticks w1) (full w1))
      | Stream events =>
          (Ok tt,
           mkWorld (trace w1 ++ sse_headers ++
                    AxiosPost call true :: List.map pass_effect events)
             (ticks w1) (full w1))
      end
  end.
Proof.
  unfold handleStream, try_catch. cbn [bind M_monad].
  destruct (generateToken js h (JIUTIAN_API_KEY h) 3600 w) as [[tok|e] w1].
  - unfold setHeaders_sse, axios_post_stream, sse_headers, emit.
    cbn [for_each bind M_monad ret trace ticks full].
    destruct (upstream_stream h (mkCall url body tok)) as [e|events].
    + unfold throw. cbn [trace ticks full].
      rewrite <- !app_assoc. reflexivity.
    + unfold ret. cbn [M_monad]. rewrite for_each_pass_through.
      cbn [trace ticks full]. rewrite <- !app_assoc. reflexivity.
  - unfold emit. cbn [trace ticks full]. rewrite <- !app_assoc. reflexivity.
Qed.

(** The forwarding routes in closed form. *)
Lemma forward_eq (h : Host) (url : jsstring) (body stream : value)
    (w : world) :
  get body "stream" = Ok stream ->
  forward js h url (fun h b => handleStream js h url b) body w =
  if strict_eq_true stream then handleStream js h url body w
  else
    match generateToken js h (JIUTIAN_API_KEY h) 3600 w with
    | (Throw e, w1) =>
        (Ok tt,
         mkWorld (trace w1 ++ [ResStatus 500; ResJson (failure_body js h e)])
           (ticks w1) (full w1))
    | (Ok jwtToken, w1) =>
        let call := mkCall url body jwtToken in
        match upstream_json h call with
        | JsonRejected e =>
            (Ok tt,
             mkWorld (trace w1 ++
                      [AxiosPost call false; ResStatus 500;
                       ResJson (failure_body js h e)])
               (ticks w1) (full w1))
        | JsonResolved data =>
            (Ok tt,
             mkWorld (trace w1 ++ [AxiosPost call false; ResJson data])
               (ticks w1) (full w1))
        end
    end.
Proof.
  intros S. unfold forward, try_catch, lift. cbn [bind M_monad].
  rewrite S. destruct (strict_eq_true stream).
  - rewrite handleStream_eq.
    destruct (generateToken js h (JIUTIAN_API_KEY h) 3600 w) as [[tok|e] w1];
      [|reflexivity].
    cbv zeta. destruct (upstream_stream h (mkCall url body tok)); reflexivity.
  - destruct (generateToken js h (JIUTIAN_API_KEY h) 3600 w) as [[tok|e] w1].
    + unfold axios_post, emit. cbn [bind M_monad trace ticks full].
      destruct (upstream_json h (mkCall url body tok)) as [e|data];
        unfold throw, ret; cbn [M_monad trace ticks full];
        rewrite <- ?app_assoc; reflexivity.
    + unfold emit. cbn [trace ticks full]. rewrite <- !app_assoc. reflexivity.
Qed.

Lemma pass_effects_calls (events : list stream_event) :
  flat_map (fun e => match e with AxiosPost c _ => [c] | _ => [] end)
           (List.map pass_effect events) = [].
Proof. induction events as [|[]]; simpl; auto. Qed.

Lemma pass_effects_status (events : list stream_event) (acc : nat) :
  fold_left (fun acc e => match e with ResStatus c => c | _ => acc end)
            (List.map pass_effect events) acc = acc.
Proof. revert acc; induction events as [|[]]; simpl; auto. Qed.


(** Both forwarding routes are [forward] at their upstream address. *)
Lemma serve_forwarding (h : Host) (path url : jsstring) (body : value) :
  (path, url) = (str "/api/completions", completions_url) \/
  (path, url) = (str "/api/chat", chat_completions_url) ->
  serve js h POST path body
  = snd (forward js h url (fun h b => handleStream js h url b) body world0).
Proof. intros [E|E]; inversion E; subst; reflexivity. Qed.

(** C10: the forwarding routes do not look at the model.  Whatever the
    request body, once the credential can be minted POST /api/completions
    and POST /api/chat (which the first handler registered for it serves)
    make exactly one upstream call, to their own address and with the
    request body unchanged, and never answer 404. *)
Theorem forwarding_routes_ignore_model (h : Host) (body stream : value) :
  get body "stream" = Ok stream ->
  mintable (JIUTIAN_API_KEY h) = true ->
  (let w := serve js h POST (str "/api/completions") body in
   List.map call_url (upstream_calls w) = [completions_url] /\
   List.map call_body (upstream_calls w) = [body] /\
   status_code w <> 404) /\
  (let w := serve js h POST (str "/api/chat") body in
   List.map call_url (upstream_calls w) = [chat_completions_url] /\
   List.map call_body (upstream_calls w) = [body] /\
   status_code w <> 404).
Proof.
  intros S Mt.
  assert (G : forall path url,
             (path, url) = (str "/api/completions", completions_url) \/
             (path, url) = (str "/api/chat", chat_completions_url) ->
             let w := serve js h POST path body in
             List.map call_url (upstream_calls w) = [url] /\
             List.map call_body (upstream_calls w) = [body] /\
             status_code w <> 404).
  { intros path url R. cbv zeta. rewrite (serve_forwarding h path url body R).
    rewrite (forward_eq h url body stream world0 S).
    destruct (generateToken_mintable js h _ 3600 world0 Mt) as [tok T].
    destruct (strict_eq_true stream).
    - rewrite handleStream_eq, T. cbv zeta.
      destruct (upstream_stream h (mkCall url body tok)) as [e|events];
        unfold upstream_calls, status_code; simpl;
        rewrite ?pass_effects_calls, ?pass_effects_status;
        repeat split; discriminate.
    - rewrite T. cbv zeta.
      destruct (upstream_json h (mkCall url body tok)) as [e|data];
        unfold upstream_calls, status_code; simpl;
        repeat split; discriminate. }
  split; apply G; [left|right]; reflexivity.
Qed.




(** C1, as the program has it.  For the streaming POST /api/generate with
    model jiutian-lan and prompt 2*3=?, when the upstream delivers the five
    deltas 2, *, 3, =, 6 and then the delta with the finish status, the
    client receives the five content frames, then one more frame that is
    not terminal and has an empty response (the finish delta is relayed
    like any other), then the terminal frame with eval_count 5 and
    prompt_eval_count 5 (the length of the prompt), and nothing else. *)
Theorem generate_scenario (h : Host) :
  mintable (JIUTIAN_API_KEY h) = true ->
  (forall call,
      upstream_stream h call = Stream (List.map on_data scenario_chunks)) ->
  let created_at := created_at_reading js h in
  delivered (serve js h POST (str "/api/generate") scenario_body)
  = [SseData (generate_frame (created_at 3) (VStr (str "2")));
     SseData (generate_frame (created_at 4) (VStr (str "*")));
     SseData (generate_frame (created_at 5) (VStr (str "3")));
     SseData (generate_frame (created_at 6) (VStr (str "=")));
     SseData (generate_frame (created_at 7) (VStr (str "6")));
     SseData (generate_frame (created_at 8) (VStr []));
     SseData (generate_final (created_at 9) (VStr []) (vnat 5) (vnat 5))].
Proof.
  intros Mt Up. cbv zeta. unfold serve. rewrite dispatch_generate.
  unfold api_generate, try_catch, lift.
  cbn -[generateToken axios_post_stream for_each generate_callbacks
        setHeaders_sse].
  destruct (generateToken_mintable js h _ 3600 world0 Mt) as [tok ->].
  unfold setHeaders_sse, axios_post_stream, sse_headers, emit.
  cbn [for_each bind M_monad ret trace ticks full world0].
  rewrite Up. vm_compute. reflexivity.
Qed.

End Routing.

(* ================================================================== *)
(** ** The program on concrete inputs *)

Lemma generate_scenario_witness :
  mintable (JIUTIAN_API_KEY (sample_host scenario_chunks VNull)) = true /\
  (forall call,
      upstream_stream (sample_host scenario_chunks VNull) call
      = Stream (List.map on_data scenario_chunks)) /\
  List.length
    (delivered (serve sample_engine (sample_host scenario_chunks VNull) POST
                  (str "/api/generate") scenario_body)) = 7.
Proof.
  assert (Mt : mintable (JIUTIAN_API_KEY (sample_host scenario_chunks VNull))
               = true) by reflexivity.
  assert (Up : forall call,
             upstream_stream (sample_host scenario_chunks VNull) call
             = Stream (List.map on_data scenario_chunks))
    by (intros; reflexivity).
  split; [exact Mt|]. split; [exact Up|].
  rewrite (generate_scenario sample_engine
             (sample_host scenario_chunks VNull) Mt Up).
  reflexivity.
Defined.

(** What the client receives in the scenario, on the sample host. *)
Lemma scenario_received :
  delivered (serve sample_engine (sample_host scenario_chunks VNull) POST
               (str "/api/generate") scenario_body)
  = let created_at := str "2025-05-20T13:21:37.000Z" in
    [SseData (generate_frame created_at (VStr (str "2")));
     SseData (generate_frame created_at (VStr (str "*")));
     SseData (generate_frame created_at (VStr (str "3")));
     SseData (generate_frame created_at (VStr (str "=")));
     SseData (generate_frame created_at (VStr (str "6")));
     SseData (generate_frame created_at (VStr []));
     SseData (generate_final created_at (VStr []) (vnat 5) (vnat 5))].
Proof. vm_compute. reflexivity. Qed.

(** The scenario as the specification words it does not happen: seven
    frames are received, not six, and none of them is a terminal frame
    counting a prompt of 9. *)
Lemma generate_scenario_not_as_specified :
  let received :=
    delivered (serve sample_engine (sample_host scenario_chunks VNull) POST
                 (str "/api/generate") scenario_body) in
  ~ scenario_as_specified received /\
  ~ (exists p, In p received /\ terminal_frame_of 5 9 p).
Proof.
  cbv zeta. rewrite scenario_received. cbv zeta. split.
  - intros [p1 [p2 [p3 [p4 [p5 [t [E _]]]]]]]. discriminate.
  - intros [p [I [frame [E [_ [_ [_ C]]]]]]].
    simpl In in I.
    repeat (destruct I as [I|I];
            [subst p; inversion E; subst frame; discriminate|]).
    exact I.
Qed.








(** C5 at a request for another model: POST /api/chat with stream true and
    model other-model is served by the first handler registered for the
    path.  The request is forwarded upstream unchanged and the provider's
    chunks are passed on as they come, with status 200; the model-gated
    handler registered later for the same path, which would answer 404, is
    never reached. *)
Theorem chat_route_is_shadowed :
  let h := sample_host chat_chunks VNull in
  let w := serve sample_engine h POST (str "/api/chat") other_model_chat_body in
  status_code w = 200 /\
  List.map call_body (upstream_calls w) = [other_model_chat_body] /\
  delivered w = List.map Raw chat_chunks /\
  status_code (snd (api_chat_ollama sample_engine h other_model_chat_body
                      world0)) = 404.
Proof. vm_compute. repeat split. Qed.



Lemma forwarding_routes_ignore_model_witness :
  get other_model_chat_body "stream" = Ok VTrue /\
  mintable (JIUTIAN_API_KEY (sample_host chat_chunks VNull)) = true /\
  List.map call_body
    (upstream_calls
       (serve sample_engine (sample_host chat_chunks VNull) POST
          (str "/api/completions") other_model_chat_body))
  = [other_model_chat_body].
Proof.
  assert (S : get other_model_chat_body "stream" = Ok VTrue) by reflexivity.
  assert (Mt : mintable (JIUTIAN_API_KEY (sample_host chat_chunks VNull))
               = true) by reflexivity.
  split; [exact S|]. split; [exact Mt|].
  destruct (forwarding_routes_ignore_model sample_engine
              (sample_host chat_chunks VNull) other_model_chat_body VTrue
              S Mt) as [[_ [B _]] _].
  exact B.
Defined.

(* ================================================================== *)
(** * Further properties of the program *)

(** ** generateToken *)

Section MintingEdges.

Variable js : Engine.

(** X1: [generateToken] returns a token exactly when the key splits at a
    dot into parts of which the second is not empty; when it throws, the
    error is always the invalid-key error, and nothing has been written to
    the response or accumulated. *)
Theorem credential_minted_iff_key_splits (h : Host)
    (apiKey : option jsstring) (lifetime : Z) (w : world) :
  ((exists jwtToken w',
       generateToken js h apiKey lifetime w = (Ok jwtToken, w'))
   <-> mintable apiKey = true) /\
  (forall e w',
      generateToken js h apiKey lifetime w = (Throw e, w') ->
      e = JsError msg_invalid_api_key /\
      trace w' = trace w /\ full w' = full w).
Proof.
  split; [split|].
  - intros [tok [w' E]]. destruct (mintable apiKey) eqn:Mt; [reflexivity|].
    destruct (generateToken_unmintable js h apiKey lifetime w Mt) as [n T].
    rewrite T in E. discriminate.
  - intros Mt.
    destruct (generateToken_mintable js h apiKey lifetime w Mt) as [tok T].
    eauto.
  - intros e w' E. destruct (mintable apiKey) eqn:Mt.
    + destruct (generateToken_mintable js h apiKey lifetime w Mt) as [tok T].
      rewrite T in E. discriminate.
    + destruct (generateToken_unmintable js h apiKey lifetime w Mt) as [n T].
      rewrite T in E. inversion E; subst. repeat split.
Qed.

(** X2: only the part of the key between its first and its second dot is
    used for signing: whatever follows a second dot is ignored, so the key
    [id.key.rest] mints the very token of [id.key]. *)
Theorem signing_key_stops_at_second_dot (h : Host) (id key rest : jsstring)
    (lifetime : Z) (w : world) :
  has_no_dot id = true ->
  has_no_dot key = true ->
  generateToken js h (Some (id ++ 46%N :: key ++ 46%N :: rest)) lifetime w
  = generateToken js h (Some (id ++ 46%N :: key)) lifetime w.
Proof.
  intros Hid Hkey. rewrite !generateToken_eq.
  rewrite !(split_dot_at_dot id _ Hid).
  rewrite (split_dot_at_dot key rest Hkey), (split_dot_no_dot key Hkey).
  reflexivity.
Qed.


(** X4: the identifier may be empty, the signing key may not: a key that
    starts with its dot mints a token whose api_key is the empty string,
    a key that ends with its only dot is refused. *)
Theorem empty_identifier_is_minted (h : Host) (key : jsstring)
    (lifetime : Z) (w : world) :
  has_no_dot key = true ->
  key <> [] ->
  (exists jwtToken,
      fst (generateToken js h (Some (46%N :: key)) lifetime w) = Ok jwtToken /\
      json_field (jwt_payload jwtToken) "api_key" = Some (VStr [])) /\
  fst (generateToken js h (Some (key ++ [46%N])) lifetime w)
  = Throw (JsError msg_invalid_api_key).
Proof.
  intros Hkey Hne. split.
  - rewrite generateToken_eq.
    change (46%N :: key) with ([] ++ 46%N :: key).
    rewrite (split_dot_at_dot [] key eq_refl), (split_dot_no_dot key Hkey).
    destruct key as [|c s]; [congruence|].
    eexists. split; reflexivity.
  - rewrite generateToken_eq.
    rewrite (split_dot_at_dot key [] Hkey). reflexivity.
Qed.

End MintingEdges.

Lemma signing_key_stops_at_second_dot_witness :
  has_no_dot (str "key-id") = true /\
  has_no_dot (str "signing-key") = true /\
  generateToken sample_engine (sample_host [] VNull)
    (Some (str "key-id" ++ 46%N :: str "signing-key" ++ 46%N :: str "x.y"))
    3600 world0
  = generateToken sample_engine (sample_host [] VNull)
      (Some (str "key-id" ++ 46%N :: str "signing-key")) 3600 world0.
Proof.
  assert (Hi : has_no_dot (str "key-id") = true) by reflexivity.
  assert (Hk : has_no_dot (str "signing-key") = true) by reflexivity.
  split; [exact Hi|]. split; [exact Hk|].
  exact (signing_key_stops_at_second_dot sample_engine (sample_host [] VNull)
           (str "key-id") (str "signing-key") (str "x.y") 3600 world0 Hi Hk).
Defined.


Lemma empty_identifier_is_minted_witness :
  has_no_dot (str "signing-key") = true /\
  str "signing-key" <> [] /\
  fst (generateToken sample_engine (sample_host [] VNull)
         (Some (str "signing-key" ++ [46%N])) 3600 world0)
  = Throw (JsError msg_invalid_api_key).
Proof.
  assert (Hk : has_no_dot (str "signing-key") = true) by reflexivity.
  assert (Hn : str "signing-key" <> []) by discriminate.
  split; [exact Hk|]. split; [exact Hn|].
  exact (proj2 (empty_identifier_is_minted sample_engine
                  (sample_host [] VNull) (str "signing-key") 3600 world0
                  Hk Hn)).
Defined.

(* ================================================================== *)
(** ** The router and the forwarding routes *)

Section ForwardingEdges.

Variable js : Engine.

(** X5: the handler registered second for POST /api/chat is dead: for every
    method, path and body the router of [app.js] does what the router
    without that registration does. *)
Theorem second_chat_registration_is_dead (h : Host) (m : method)
    (path : jsstring) (body : value) :
  dispatch js h m path body
  = dispatch_in (routes_without_second_chat js) h m path body.
Proof.
  unfold dispatch, dispatch_in, routes, routes_without_second_chat, matches.
  cbn [find route_method route_path].
  destruct (method_eqb POST m && str_eqb (str "/api/completions") path);
    [reflexivity|].
  destruct (method_eqb POST m && str_eqb (str "/api/chat") path);
    [reflexivity|].
  destruct (method_eqb GET m && str_eqb (str "/api/tags") path);
    [reflexivity|].
  destruct (method_eqb POST m && str_eqb (str "/api/generate") path);
    reflexivity.
Qed.

Lemma pass_effects_until_end (chunks : list jsstring)
    (rest : list stream_event) :
  delivered_trace
    (List.map pass_effect (List.map on_data chunks ++ on_end :: rest))
  = List.map Raw chunks.
Proof. induction chunks as [|c cs IH]; simpl; [reflexivity|now rewrite IH]. Qed.

Lemma pass_effects_ended (chunks : list jsstring) (rest : list stream_event) :
  existsb ends
    (List.map pass_effect (List.map on_data chunks ++ on_end :: rest)) = true.
Proof. induction chunks as [|c cs IH]; simpl; auto. Qed.

(** X6: a request the forwarding routes do not stream (its stream property
    is anything but the boolean true) is answered with the provider's data
    as they came, under status 200, once the credential is minted and the
    provider answers. *)
Theorem forwarded_answer_is_relayed (h : Host) (path url : jsstring)
    (body stream data : value) :
  (path, url) = (str "/api/completions", completions_url) \/
  (path, url) = (str "/api/chat", chat_completions_url) ->
  get body "stream" = Ok stream ->
  strict_eq_true stream = false ->
  mintable (JIUTIAN_API_KEY h) = true ->
  (forall call, upstream_json h call = JsonResolved data) ->
  let w := serve js h POST path body in
  delivered w = [JsonBody data] /\
  status_code w = 200 /\
  List.map call_url (upstream_calls w) = [url].
Proof.
  intros R S NS Mt Up. cbv zeta.
  rewrite (serve_forwarding js h path url body R).
  rewrite (forward_eq js h url body stream world0 S), NS.
  destruct (generateToken_mintable js h _ 3600 world0 Mt) as [tok ->].
  cbv zeta. rewrite Up. repeat split.
Qed.

(** X7: a request the forwarding routes stream has the chunks of the
    provider written to the client unchanged and in order, after the three
    event-stream headers, and the response is ended when the upstream
    stream ends; nothing that comes after the end is delivered. *)
Theorem stream_is_passed_through (h : Host) (path url : jsstring)
    (body stream : value) (chunks : list jsstring)
    (rest : list stream_event) :
  (path, url) = (str "/api/completions", completions_url) \/
  (path, url) = (str "/api/chat", chat_completions_url) ->
  get body "stream" = Ok stream ->
  strict_eq_true stream = true ->
  mintable (JIUTIAN_API_KEY h) = true ->
  (forall call,
      upstream_stream h call = Stream (List.map on_data chunks ++ on_end :: rest)) ->
  let w := serve js h POST path body in
  delivered w = List.map Raw chunks /\
  finished w = true /\
  status_code w = 200 /\
  firstn 3 (trace w) = sse_headers.
Proof.
  intros R S St Mt Up. cbv zeta.
  rewrite (serve_forwarding js h path url body R).
  rewrite (forward_eq js h url body stream world0 S), St.
  rewrite handleStream_eq.
  destruct (generateToken_mintable js h _ 3600 world0 Mt) as [tok ->].
  cbv zeta. rewrite Up. unfold delivered, finished, status_code.
  cbn [snd trace world0 app sse_headers delivered_trace existsb ends fold_left
       firstn orb].
  rewrite pass_effects_until_end, pass_effects_ended, pass_effects_status.
  repeat split.
Qed.

End ForwardingEdges.

Lemma forwarded_answer_is_relayed_witness :
  ((str "/api/chat", chat_completions_url)
   = (str "/api/completions", completions_url) \/
   (str "/api/chat", chat_completions_url)
   = (str "/api/chat", chat_completions_url)) /\
  get other_model_body "stream" = Ok VUndefined /\
  strict_eq_true VUndefined = false /\
  mintable (JIUTIAN_API_KEY (sample_host [] completion_data)) = true /\
  (forall call,
      upstream_json (sample_host [] completion_data) call
      = JsonResolved completion_data) /\
  delivered (serve sample_engine (sample_host [] completion_data) POST
               (str "/api/chat") other_model_body)
  = [JsonBody completion_data].
Proof.
  assert (R : (str "/api/chat", chat_completions_url)
              = (str "/api/completions", completions_url) \/
              (str "/api/chat", chat_completions_url)
              = (str "/api/chat", chat_completions_url))
    by (right; reflexivity).
  assert (S : get other_model_body "stream" = Ok VUndefined) by reflexivity.
  assert (NS : strict_eq_true VUndefined = false) by reflexivity.
  assert (Mt : mintable (JIUTIAN_API_KEY (sample_host [] completion_data))
               = true) by reflexivity.
  assert (Up : forall call,
             upstream_json (sample_host [] completion_data) call
             = JsonResolved completion_data) by (intros; reflexivity).
  repeat (split; [assumption|]).
  exact (proj1 (forwarded_answer_is_relayed sample_engine
                  (sample_host [] completion_data) _ _ other_model_body
                  VUndefined completion_data R S NS Mt Up)).
Defined.

Lemma stream_is_passed_through_witness :
  ((str "/api/completions", completions_url)
   = (str "/api/completions", completions_url) \/
   (str "/api/completions", completions_url)
   = (str "/api/chat", chat_completions_url)) /\
  get streaming_body "stream" = Ok VTrue /\
  strict_eq_true VTrue = true /\
  mintable (JIUTIAN_API_KEY
              (stream_host (List.map on_data scenario_chunks ++ [on_end])
                 VNull)) = true /\
  (forall call,
      upstream_stream
        (stream_host (List.map on_data scenario_chunks ++ [on_end]) VNull) call
      = Stream (List.map on_data scenario_chunks ++ [on_end])) /\
  delivered
    (serve sample_engine
       (stream_host (List.map on_data scenario_chunks ++ [on_end]) VNull)
       POST (str "/api/completions") streaming_body)
  = List.map Raw scenario_chunks.
Proof.
  assert (R : (str "/api/completions", completions_url)
              = (str "/api/completions", completions_url) \/
              (str "/api/completions", completions_url)
              = (str "/api/chat", chat_completions_url))
    by (left; reflexivity).
  assert (S : get streaming_body "stream" = Ok VTrue) by reflexivity.
  assert (St : strict_eq_true VTrue = true) by reflexivity.
  assert (Mt : mintable (JIUTIAN_API_KEY
                 (stream_host (List.map on_data scenario_chunks ++ [on_end])
                    VNull)) = true) by reflexivity.
  assert (Up : forall call,
             upstream_stream
               (stream_host (List.map on_data scenario_chunks ++ [on_end])
                  VNull) call
             = Stream (List.map on_data scenario_chunks ++ [on_end]))
    by (intros; reflexivity).
  repeat (split; [assumption|]).
  exact (proj1 (stream_is_passed_through sample_engine _ _ _ streaming_body
                  VTrue scenario_chunks [] R S St Mt Up)).
Defined.

(* ================================================================== *)
(** ** Compatible sessions under any event sequence *)

Section SessionEdges.

Variable js : Engine.

Lemma generate_on_data_calls (h : Host) (prompt : value) (c : jsstring)
    (w : world) :
  exists out,
    trace (snd (generate_on_data js h prompt c w)) = trace w ++ out /\
    forallb body_call out = true.
Proof.
  rewrite generate_on_data_eq. simpl.
  destruct (decode c) as [data|];
    [|exists []; now rewrite app_nil_r].
  destruct (delta_field js "text" data) as [found|];
    [|exists []; now rewrite app_nil_r].
  destruct (finish_marker data) as [[|]|];
    try destruct (get prompt "length"); eexists; split; reflexivity.
Qed.

Lemma chat_on_data_calls (h : Host) (c : jsstring) (w : world) :
  exists out,
    trace (snd (chat_on_data js h c w)) = trace w ++ out /\
    forallb body_call out = true.
Proof.
  rewrite chat_on_data_eq. simpl.
  destruct (decode c) as [data|];
    [|exists []; now rewrite app_nil_r].
  destruct (delta_field js "content" data) as [found|];
    [|exists []; now rewrite app_nil_r].
  destruct (finish_marker data) as [[|]|]; eexists; split; reflexivity.
Qed.

(** No callback of a compatible session throws. *)
Lemma generate_callbacks_ok (h : Host) (prompt : value) (ev : stream_event)
    (w : world) :
  generate_callbacks js h prompt ev w
  = (Ok tt, snd (generate_callbacks js h prompt ev w)).
Proof.
  destruct ev; simpl; try reflexivity. now rewrite generate_on_data_eq.
Qed.

Lemma chat_callbacks_ok (h : Host) (ev : stream_event) (w : world) :
  chat_callbacks js h ev w = (Ok tt, snd (chat_callbacks js h ev w)).
Proof.
  destruct ev; simpl; try reflexivity. now rewrite chat_on_data_eq.
Qed.

Lemma generate_session_cons (h : Host) (prompt : value) (ev : stream_event)
    (events : list stream_event) (w : world) :
  generate_session js h prompt (ev :: events) w
  = generate_session js h prompt events
      (snd (generate_callbacks js h prompt ev w)).
Proof.
  unfold generate_session. cbn [for_each bind M_monad].
  now rewrite generate_callbacks_ok.
Qed.

Lemma chat_session_cons (h : Host) (ev : stream_event)
    (events : list stream_event) (w : world) :
  chat_session js h (ev :: events) w
  = chat_session js h events (snd (chat_callbacks js h ev w)).
Proof.
  unfold chat_session. cbn [for_each bind M_monad].
  now rewrite chat_callbacks_ok.
Qed.

Lemma generate_session_app (h : Host) (prompt : value)
    (e1 e2 : list stream_event) (w : world) :
  generate_session js h prompt (e1 ++ e2) w
  = generate_session js h prompt e2 (generate_session js h prompt e1 w).
Proof.
  revert w; induction e1 as [|ev e1 IH]; intros w; [reflexivity|].
  simpl. rewrite !generate_session_cons. apply IH.
Qed.

Lemma chat_session_app (h : Host) (e1 e2 : list stream_event) (w : world) :
  chat_session js h (e1 ++ e2) w
  = chat_session js h e2 (chat_session js h e1 w).
Proof.
  revert w; induction e1 as [|ev e1 IH]; intros w; [reflexivity|].
  simpl. rewrite !chat_session_cons. apply IH.
Qed.

Lemma for_each_generate_callbacks (h : Host) (prompt : value)
    (events : list stream_event) (w : world) :
  for_each (generate_callbacks js h prompt) events w
  = (Ok tt, generate_session js h prompt events w).
Proof.
  revert w; induction events as [|ev evs IH]; intros w; [reflexivity|].
  rewrite generate_session_cons. cbn [for_each bind M_monad].
  rewrite generate_callbacks_ok. apply IH.
Qed.

(** A session only ever writes to the body of the response or ends it. *)
Lemma generate_session_calls (h : Host) (prompt : value)
    (events : list stream_event) (w : world) :
  exists out,
    trace (generate_session js h prompt events w) = trace w ++ out /\
    forallb body_call out = true.
Proof.
  revert w; induction events as [|ev evs IH]; intros w.
  - exists []. now rewrite app_nil_r.
  - rewrite generate_session_cons.
    destruct (IH (snd (generate_callbacks js h prompt ev w))) as [o2 [E2 B2]].
    assert (S1 : exists o1,
               trace (snd (generate_callbacks js h prompt ev w))
               = trace w ++ o1 /\ forallb body_call o1 = true).
    { destruct ev; simpl.
      - apply generate_on_data_calls.
      - exists []. now rewrite app_nil_r.
      - eexists [_]. split; reflexivity. }
    destruct S1 as [o1 [E1 B1]].
    exists (o1 ++ o2). rewrite E2, E1, <- app_assoc, forallb_app, B1, B2.
    split; reflexivity.
Qed.

Lemma chat_session_calls (h : Host) (events : list stream_event)
    (w : world) :
  exists out,
    trace (chat_session js h events w) = trace w ++ out /\
    forallb body_call out = true.
Proof.
  revert w; induction events as [|ev evs IH]; intros w.
  - exists []. now rewrite app_nil_r.
  - rewrite chat_session_cons.
    destruct (IH (snd (chat_callbacks js h ev w))) as [o2 [E2 B2]].
    assert (S1 : exists o1,
               trace (snd (chat_callbacks js h ev w))
               = trace w ++ o1 /\ forallb body_call o1 = true).
    { destruct ev; simpl.
      - apply chat_on_data_calls.
      - exists []. now rewrite app_nil_r.
      - eexists [_]. split; reflexivity. }
    destruct S1 as [o1 [E1 B1]].
    exists (o1 ++ o2). rewrite E2, E1, <- app_assoc, forallb_app, B1, B2.
    split; reflexivity.
Qed.


Lemma existsb_ends_written (frames : list value) :
  existsb ends (List.map write_frame frames) = false.
Proof. induction frames; simpl; auto. Qed.


(** X9: the compatible sessions register no [end] handler: when the
    upstream stream ends without a chunk carrying the finish status, the
    response is left open; no terminal frame is written and the response
    is never ended. *)
Theorem upstream_end_leaves_response_open (h : Host) (prompt : value)
    (chunks : list jsstring) (w : world) :
  finished w = false ->
  Forall (fun c => finish_frame c = false) chunks ->
  finished
    (generate_session js h prompt (List.map on_data chunks ++ [on_end]) w)
  = false /\
  finished (chat_session js h (List.map on_data chunks ++ [on_end]) w)
  = false.
Proof.
  intros U C. split.
  - rewrite generate_session_app.
    destruct (generate_session_content js h prompt chunks w C)
      as [frames [E _]].
    unfold generate_session at 1. simpl. unfold finished.
    rewrite E, existsb_app, existsb_ends_written. unfold finished in U.
    now rewrite U.
  - rewrite chat_session_app.
    destruct (chat_session_content js h chunks w C) as [frames [E _]].
    unfold chat_session at 1. simpl. unfold finished.
    rewrite E, existsb_app, existsb_ends_written. unfold finished in U.
    now rewrite U.
Qed.

(** X10: an error of the upstream stream before the finish status ends the
    response with one error frame after the frames already written, and
    nothing that comes later is delivered. *)
Theorem upstream_error_ends_with_error_frame (h : Host) (prompt : value)
    (chunks : list jsstring) (err : error) (more : list stream_event)
    (w : world) :
  finished w = false ->
  Forall (fun c => finish_frame c = false) chunks ->
  (let before := generate_session js h prompt (List.map on_data chunks) w in
   let s := generate_session js h prompt
              (List.map on_data chunks ++ on_error err :: more) w in
   delivered s = delivered before ++ [stream_error_frame] /\
   finished s = true) /\
  (let before := chat_session js h (List.map on_data chunks) w in
   let s := chat_session js h
              (List.map on_data chunks ++ on_error err :: more) w in
   delivered s = delivered before ++ [stream_error_frame] /\
   finished s = true).
Proof.
  intros U C. unfold finished in U. split; cbv zeta.
  - rewrite generate_session_app, generate_session_cons.
    destruct (generate_session_content js h prompt chunks w C)
      as [frames [E _]].
    set (before := generate_session js h prompt (List.map on_data chunks) w)
      in *.
    destruct (generate_session_calls h prompt more
                (snd (generate_callbacks js h prompt (on_error err) before)))
      as [out [E2 _]].
    unfold delivered, finished. rewrite E2. simpl.
    assert (O : existsb ends (trace before) = false)
      by (rewrite E, existsb_app, existsb_ends_written, U; reflexivity).
    rewrite <- app_assoc, !existsb_app. simpl. rewrite orb_true_r.
    split; [|reflexivity].
    rewrite delivered_trace_app by exact O. reflexivity.
  - rewrite chat_session_app, chat_session_cons.
    destruct (chat_session_content js h chunks w C) as [frames [E _]].
    set (before := chat_session js h (List.map on_data chunks) w) in *.
    destruct (chat_session_calls h more
                (snd (chat_callbacks js h (on_error err) before)))
      as [out [E2 _]].
    unfold delivered, finished. rewrite E2. simpl.
    assert (O : existsb ends (trace before) = false)
      by (rewrite E, existsb_app, existsb_ends_written, U; reflexivity).
    rewrite <- app_assoc, !existsb_app. simpl. rewrite orb_true_r.
    split; [|reflexivity].
    rewrite delivered_trace_app by exact O. reflexivity.
Qed.

End SessionEdges.

(* ================================================================== *)
(** ** The text the frames carry *)

Section SessionTexts.

Variable js : Engine.












(** With a prompt whose length cannot be read, a chunk writes at most its
    own frame. *)
Lemma generate_on_data_without_prompt (h : Host) (prompt : value)
    (e : error) (c : jsstring) (w : world) :
  get prompt "length" = Throw e ->
  exists frames,
    trace (snd (generate_on_data js h prompt c w))
    = trace w ++ List.map write_frame frames /\
    Forall (fun f => is_terminal f = false) frames.
Proof.
  intros P. rewrite generate_on_data_eq, P. simpl.
  destruct (decode c) as [data|];
    [|exists []; simpl; now rewrite app_nil_r].
  destruct (delta_field js "text" data) as [found|];
    [|exists []; simpl; now rewrite app_nil_r].
  destruct (finish_marker data) as [[|]|];
    eexists [_]; (split; [reflexivity|]); repeat constructor.
Qed.

(** X12: a streaming /api/generate request without a prompt (undefined or
    null) is never finished: whatever chunks arrive, finish status or not,
    only frames that are not terminal are delivered and the response is
    never ended, because reading the prompt's length throws while the
    terminal frame is built. *)
Theorem missing_prompt_never_finishes (h : Host) (prompt : value)
    (chunks : list jsstring) (w : world) :
  defined prompt = false ->
  finished w = false ->
  let s := generate_session js h prompt (List.map on_data chunks) w in
  finished s = false /\
  exists frames,
    delivered s = delivered w ++ List.map SseData frames /\
    Forall (fun f => is_terminal f = false) frames.
Proof.
  intros D U. cbv zeta.
  assert (P : exists e, get prompt "length" = Throw e)
    by (destruct prompt; try discriminate; eexists; reflexivity).
  destruct P as [e P].
  assert (G : exists frames,
             trace (generate_session js h prompt (List.map on_data chunks) w)
             = trace w ++ List.map write_frame frames /\
             Forall (fun f => is_terminal f = false) frames).
  { clear U. revert w; induction chunks as [|c cs IH]; intros w.
    - exists []; simpl. now rewrite app_nil_r.
    - simpl List.map. rewrite generate_session_data.
      destruct (generate_on_data_without_prompt h prompt e c w P)
        as [f1 [E1 N1]].
      destruct (IH (snd (generate_on_data js h prompt c w))) as [f2 [E2 N2]].
      exists (f1 ++ f2). split.
      + rewrite E2, E1, List.map_app, app_assoc. reflexivity.
      + apply Forall_app; auto. }
  destruct G as [frames [E N]]. unfold finished, delivered in *.
  rewrite E. split.
  - rewrite existsb_app, U. apply existsb_ends_written.
  - exists frames. split; [|exact N].
    rewrite delivered_trace_app by exact U.
    now rewrite delivered_trace_frames.
Qed.

End SessionTexts.

(* ================================================================== *)
(** ** /api/generate beyond the model check *)

Section GenerateEdges.

Variable js : Engine.

Ltac fin := cbn [trace ticks full]; repeat rewrite <- app_assoc; reflexivity.

(** The handler of /api/generate in closed form, for a request that names
    the model and whose options can be read. *)
Lemma api_generate_eq (h : Host)
    (body prompt stream0 options0 temperature top_p : value) (w : world) :
  get body "model" = Ok (VStr jiutian_lan) ->
  get body "prompt" = Ok prompt ->
  get body "stream" = Ok stream0 ->
  get body "options" = Ok options0 ->
  get (default_to (VObj []) options0) "temperature" = Ok temperature ->
  get (default_to (VObj []) options0) "top_p" = Ok top_p ->
  api_generate js h body w =
  let stream := default_to VTrue stream0 in
  let params := jiutian_params prompt temperature top_p stream in
  match generateToken js h (JIUTIAN_API_KEY h) 3600 w with
  | (Throw e, w1) =>
      (Ok tt,
       mkWorld (trace w1 ++ [ResStatus 500; ResJson (generate_failure js e)])
         (ticks w1) (full w1))
  | (Ok jwtToken, w1) =>
      let call := mkCall completions_url params jwtToken in
      if truthy stream then
        match upstream_stream h call with
        | StreamRejected e =>
            (Ok tt,
             mkWorld (trace w1 ++ sse_headers ++
                      [AxiosPost call true; ResStatus 500;
                       ResJson (generate_failure js e)])
               (ticks w1) (full w1))
        | Stream events =>
            (Ok tt,
             generate_session js h prompt events
               (mkWorld (trace w1 ++ sse_headers ++ [AxiosPost call true])
                  (ticks w1) (full w1)))
        end
      else
        match upstream_json h call with
        | JsonRejected e =>
            (Ok tt,
             mkWorld (trace w1 ++
                      [AxiosPost call false; ResStatus 500;
                       ResJson (generate_failure js e)])
               (ticks w1) (full w1))
        | JsonResolved data =>
            match generate_answer js h prompt data
                    (mkWorld (trace w1 ++ [AxiosPost call false])
                       (ticks w1) (full w1)) with
            | (Ok _, w3) => (Ok tt, w3)
            | (Throw e, w3) =>
                (Ok tt,
                 mkWorld (trace w3 ++
                          [ResStatus 500; ResJson (generate_failure js e)])
                   (ticks w3) (full w3))
            end
        end
  end.
Proof.
  intros Gm Gp Gs Go Gt Gtp.
  unfold api_generate, try_catch, lift. cbn [bind M_monad].
  rewrite Gm, Gp, Gs, Go.
  destruct (get_defined body _ "model" "system" Gm) as [v3 ->].
  change (strict_eq_str (VStr jiutian_lan) jiutian_lan) with true.
  cbn [negb]. rewrite Gt, Gtp.
  destruct (generateToken js h (JIUTIAN_API_KEY h) 3600 w) as [[tok|e] w1].
  - cbv zeta. destruct (truthy (default_to VTrue stream0)).
    + unfold setHeaders_sse, axios_post_stream, sse_headers, emit.
      cbn [for_each bind M_monad ret trace ticks full].
      fold (jiutian_params prompt temperature top_p (default_to VTrue stream0)).
      destruct (upstream_stream h _) as [e|events].
      * unfold throw. cbn [trace ticks full]. rewrite <- !app_assoc.
        reflexivity.
      * unfold ret. cbn [M_monad]. rewrite for_each_generate_callbacks.
        rewrite <- !app_assoc. reflexivity.
    + unfold axios_post, emit. cbn [bind M_monad ret trace ticks full].
      fold (jiutian_params prompt temperature top_p (default_to VTrue stream0)).
      destruct (upstream_json h _) as [e|data].
      * unfold throw. cbn [trace ticks full]. rewrite <- !app_assoc.
        reflexivity.
      * unfold generate_answer, lift, toISOString_now, now, emit.
        cbn [bind M_monad ret trace ticks full].
        destruct (get data "choices") as [choices|]; [|fin].
        destruct (truthy choices);
          [destruct (get choices "length") as [len|]; [|fin];
           destruct (ToNumber_gt0 js len);
           [destruct (get_idx choices 0) as [first|]; [|fin];
            destruct (get first "text") as [txt|]; [|fin]| ]| ];
          cbn [bind M_monad ret trace ticks full];
          destruct (get prompt "length") as [n|]; try fin;
          match goal with
          | |- context [get ?r "length"] => destruct (get r "length"); fin
          end.
  - unfold emit. fin.
Qed.

Lemma num_gt0_S (k : nat) : num_gt0 (num_of_nat (S k)) = true.
Proof.
  unfold num_gt0, num_is_zero, num_of_nat. cbn [neg mant exp10 negb andb].
  destruct (N.eqb (N.of_nat (S k)) 0) eqn:E; [|reflexivity].
  apply N.eqb_eq in E. lia.
Qed.

Lemma or_else_text (t : jsstring) : or_else (VStr t) (VStr []) = VStr t.
Proof. destruct t; reflexivity. Qed.

(** The answer that is not streamed either throws before it writes
    anything or writes one JSON body. *)
Lemma generate_answer_cases (h : Host) (prompt data : value) (w : world) :
  (exists e n,
      generate_answer js h prompt data w
      = (Throw e, mkWorld (trace w) n (full w))) \/
  (exists v n,
      generate_answer js h prompt data w
      = (Ok tt, mkWorld (trace w ++ [ResJson v]) n (full w))).
Proof.
  destruct w as [tr tk fl].
  unfold generate_answer, lift, toISOString_now, now, emit.
  cbn [bind M_monad ret trace ticks full].
  destruct (get data "choices") as [choices|];
    [|left; do 2 eexists; reflexivity].
  destruct (truthy choices);
    [destruct (get choices "length") as [len|];
       [|left; do 2 eexists; reflexivity];
     destruct (ToNumber_gt0 js len);
     [destruct (get_idx choices 0) as [first|];
        [|left; do 2 eexists; reflexivity];
      destruct (get first "text") as [txt|];
        [|left; do 2 eexists; reflexivity]| ]| ];
    cbn [bind M_monad ret trace ticks full];
    (destruct (get prompt "length") as [n|];
       [|left; do 2 eexists; reflexivity]);
    match goal with
    | |- context [get ?r "length"] =>
        destruct (get r "length");
        [right; do 2 eexists; reflexivity|left; do 2 eexists; reflexivity]
    end.
Qed.

Lemma generate_answer_text (h : Host) (prompt n data first : value)
    (rest : list value) (t : jsstring) (w : world) :
  get data "choices" = Ok (VArr (first :: rest)) ->
  get first "text" = Ok (VStr t) ->
  get prompt "length" = Ok n ->
  generate_answer js h prompt data w
  = (Ok tt,
     mkWorld
       (trace w ++
        [ResJson (generate_final (created_at_reading js h (ticks w))
                    (VStr t) n (vnat (List.length t)))])
       (S (ticks w)) (full w)).
Proof.
  intros Gc Gt Gp.
  unfold generate_answer, lift, toISOString_now, now, emit.
  cbn [bind M_monad ret trace ticks full]. rewrite Gc.
  cbn [truthy get String.eqb Ascii.eqb Bool.eqb List.length ToNumber_gt0 vnat].
  rewrite num_gt0_S. cbn [get_idx nth_error]. rewrite Gt, or_else_text.
  cbn [bind M_monad ret trace ticks full]. rewrite Gp.
  reflexivity.
Qed.

Lemma generate_answer_no_choices (h : Host) (prompt n data choices : value)
    (w : world) :
  get data "choices" = Ok choices ->
  truthy choices = false ->
  get prompt "length" = Ok n ->
  generate_answer js h prompt data w
  = (Ok tt,
     mkWorld
       (trace w ++
        [ResJson (generate_final (created_at_reading js h (ticks w))
                    (VStr []) n (vnat 0))])
       (S (ticks w)) (full w)).
Proof.
  intros Gc T Gp.
  unfold generate_answer, lift, toISOString_now, now, emit.
  cbn [bind M_monad ret trace ticks full]. rewrite Gc, T.
  cbn [bind M_monad ret trace ticks full]. rewrite Gp. reflexivity.
Qed.

Lemma generate_answer_without_prompt (h : Host) (prompt data : value)
    (w : world) :
  defined prompt = false ->
  exists e n,
    generate_answer js h prompt data w
    = (Throw e, mkWorld (trace w) n (full w)).
Proof.
  intros D.
  assert (P : exists e, get prompt "length" = Throw e)
    by (destruct prompt; try discriminate; eexists; reflexivity).
  destruct P as [e P].
  destruct (generate_answer_cases h prompt data w) as [L|[v [n R]]];
    [exact L|].
  exfalso. revert R.
  unfold generate_answer, lift, toISOString_now, now, emit.
  cbn [bind M_monad ret trace ticks full].
  destruct (get data "choices") as [choices|]; [|discriminate].
  destruct (truthy choices);
    [destruct (get choices "length") as [len|]; [|discriminate];
     destruct (ToNumber_gt0 js len);
     [destruct (get_idx choices 0) as [first|]; [|discriminate];
      destruct (get first "text") as [txt|]; [|discriminate]| ]| ];
    cbn [bind M_monad ret trace ticks full]; rewrite P; discriminate.
Qed.

Lemma calls_of_body_calls (out : list effect) :
  forallb body_call out = true ->
  flat_map (fun e => match e with AxiosPost c _ => [c] | _ => [] end) out = [].
Proof.
  induction out as [|e out IH]; simpl; [reflexivity|].
  destruct e; simpl; intros H; try discriminate; auto.
Qed.

Lemma status_of_body_calls (out : list effect) (acc : nat) :
  forallb body_call out = true ->
  fold_left (fun acc e => match e with ResStatus c => c | _ => acc end) out acc
  = acc.
Proof.
  revert acc; induction out as [|e out IH]; simpl; [reflexivity|].
  destruct e; simpl; intros acc H; try discriminate; auto.
Qed.

(** X13: what /api/generate sends upstream.  For a request that names the
    model, exactly one call goes to the completions address, and its body
    is built from the request alone: the prompt as given, temperature and
    top_p from the options or, when they are missing or falsy (0
    included), 0.7 and 0.9, an empty history, and stream as given or true
    by default; the system prompt and every other property of the request
    are left out. *)
Theorem upstream_request_of_generate (h : Host)
    (body prompt stream0 options0 temperature top_p : value) :
  get body "model" = Ok (VStr jiutian_lan) ->
  get body "prompt" = Ok prompt ->
  get body "stream" = Ok stream0 ->
  get body "options" = Ok options0 ->
  get (default_to (VObj []) options0) "temperature" = Ok temperature ->
  get (default_to (VObj []) options0) "top_p" = Ok top_p ->
  mintable (JIUTIAN_API_KEY h) = true ->
  let w := serve js h POST (str "/api/generate") body in
  List.map call_url (upstream_calls w) = [completions_url] /\
  List.map call_body (upstream_calls w)
  = [obj [("model", VStr jiutian_lan);
          ("prompt", prompt);
          ("temperature", or_else temperature (VNum num_0_7));
          ("top_p", or_else top_p (VNum num_0_9));
          ("history", VArr []);
          ("stream", default_to VTrue stream0)]].
Proof.
  intros Gm Gp Gs Go Gt Gtp Mt. cbv zeta. unfold serve.
  rewrite dispatch_generate.
  rewrite (api_generate_eq h body prompt stream0 options0 temperature top_p
             world0 Gm Gp Gs Go Gt Gtp).
  destruct (generateToken_mintable js h _ 3600 world0 Mt) as [tok ->].
  cbv zeta. unfold upstream_calls.
  destruct (truthy (default_to VTrue stream0)).
  - destruct (upstream_stream h _) as [e|events]; [split; reflexivity|].
    cbn [snd].
    match goal with
    | |- context [generate_session js h prompt events ?w0] =>
        destruct (generate_session_calls js h prompt events w0)
          as [out [E B]]
    end.
    rewrite E. cbn [trace]. rewrite flat_map_app, (calls_of_body_calls out B).
    split; reflexivity.
  - destruct (upstream_json h _) as [e|data]; [split; reflexivity|].
    match goal with
    | |- context [generate_answer js h prompt data ?w0] =>
        destruct (generate_answer_cases h prompt data w0)
          as [[e [n ->]]|[v [n ->]]]
    end; split; reflexivity.
Qed.

(** X14: the answer of /api/generate to a request that is not streamed.
    When the provider's data carry a text in their first choice, the client
    receives one JSON body with that text as response, done true,
    eval_count the length of the text and prompt_eval_count the length of
    the prompt, under status 200; when the data carry no choices the
    response is empty and eval_count is 0. *)
Theorem unstreamed_generate_answer (h : Host)
    (body prompt n stream0 options0 temperature top_p data : value) :
  get body "model" = Ok (VStr jiutian_lan) ->
  get body "prompt" = Ok prompt ->
  get body "stream" = Ok stream0 ->
  get body "options" = Ok options0 ->
  get (default_to (VObj []) options0) "temperature" = Ok temperature ->
  get (default_to (VObj []) options0) "top_p" = Ok top_p ->
  truthy (default_to VTrue stream0) = false ->
  get prompt "length" = Ok n ->
  mintable (JIUTIAN_API_KEY h) = true ->
  (forall call, upstream_json h call = JsonResolved data) ->
  let w := serve js h POST (str "/api/generate") body in
  (forall first rest t,
      get data "choices" = Ok (VArr (first :: rest)) ->
      get first "text" = Ok (VStr t) ->
      delivered w
      = [JsonBody (generate_final (created_at_reading js h 3) (VStr t) n
                     (vnat (List.length t)))] /\
      status_code w = 200) /\
  (forall choices,
      get data "choices" = Ok choices ->
      truthy choices = false ->
      delivered w
      = [JsonBody (generate_final (created_at_reading js h 3) (VStr []) n
                     (vnat 0))] /\
      status_code w = 200).
Proof.
  intros Gm Gp Gs Go Gt Gtp NS Pn Mt Up. cbv zeta. unfold serve.
  rewrite dispatch_generate.
  rewrite (api_generate_eq h body prompt stream0 options0 temperature top_p
             world0 Gm Gp Gs Go Gt Gtp).
  destruct (generateToken_mintable js h _ 3600 world0 Mt) as [tok ->].
  cbv zeta. rewrite NS, Up. split.
  - intros first rest t Gc Gx.
    rewrite (generate_answer_text h prompt n data first rest t _ Gc Gx Pn).
    split; reflexivity.
  - intros choices Gc T.
    rewrite (generate_answer_no_choices h prompt n data choices _ Gc T Pn).
    split; reflexivity.
Qed.

(** X15: how /api/generate reports a failure met before any byte of the
    body.  When the credential cannot be minted no upstream call is made;
    when the provider rejects the call, streamed or not, the call has been
    made (and for a streamed request the event-stream headers set).  In
    each case the client receives status 500 and one JSON body with error
    and detail; unlike the forwarding routes, the body never has a stack
    field. *)
Theorem generate_failure_is_reported (h : Host)
    (body prompt stream0 options0 temperature top_p : value) :
  get body "model" = Ok (VStr jiutian_lan) ->
  get body "prompt" = Ok prompt ->
  get body "stream" = Ok stream0 ->
  get body "options" = Ok options0 ->
  get (default_to (VObj []) options0) "temperature" = Ok temperature ->
  get (default_to (VObj []) options0) "top_p" = Ok top_p ->
  let w := serve js h POST (str "/api/generate") body in
  (mintable (JIUTIAN_API_KEY h) = false ->
   delivered w = [JsonBody (generate_failure js (JsError msg_invalid_api_key))]
   /\ status_code w = 500 /\ upstream_calls w = []) /\
  (mintable (JIUTIAN_API_KEY h) = true ->
   forall e,
     (truthy (default_to VTrue stream0) = true ->
      (forall call, upstream_stream h call = StreamRejected e) ->
      delivered w = [JsonBody (generate_failure js e)] /\
      status_code w = 500 /\ List.length (upstream_calls w) = 1 /\
      firstn 3 (trace w) = sse_headers) /\
     (truthy (default_to VTrue stream0) = false ->
      (forall call, upstream_json h call = JsonRejected e) ->
      delivered w = [JsonBody (generate_failure js e)] /\
      status_code w = 500 /\ List.length (upstream_calls w) = 1)) /\
  (forall e,
      json_field (generate_failure js e) "error"
      = Some (VStr msg_generate_failed) /\
      json_field (generate_failure js e) "detail" = Some (VStr (message js e))
      /\ json_field (generate_failure js e) "stack" = None).
Proof.
  intros Gm Gp Gs Go Gt Gtp. cbv zeta. unfold serve.
  rewrite dispatch_generate.
  rewrite (api_generate_eq h body prompt stream0 options0 temperature top_p
             world0 Gm Gp Gs Go Gt Gtp).
  split; [|split].
  - intros Mt.
    destruct (generateToken_unmintable js h _ 3600 world0 Mt) as [n ->].
    repeat split.
  - intros Mt e.
    destruct (generateToken_mintable js h _ 3600 world0 Mt) as [tok ->].
    cbv zeta. split; intros -> Up; rewrite Up; repeat split.
  - intros e. repeat split.
Qed.

(** X16: a request to /api/generate that is not streamed and has no prompt
    (undefined or null) still costs an upstream call: the call is made,
    and only then, whatever the provider answers, the client is answered
    with status 500, because the length of the prompt is read while the
    answer is built. *)
Theorem unstreamed_generate_needs_prompt (h : Host)
    (body prompt stream0 options0 temperature top_p data : value) :
  get body "model" = Ok (VStr jiutian_lan) ->
  get body "prompt" = Ok prompt ->
  get body "stream" = Ok stream0 ->
  get body "options" = Ok options0 ->
  get (default_to (VObj []) options0) "temperature" = Ok temperature ->
  get (default_to (VObj []) options0) "top_p" = Ok top_p ->
  truthy (default_to VTrue stream0) = false ->
  defined prompt = false ->
  mintable (JIUTIAN_API_KEY h) = true ->
  (forall call, upstream_json h call = JsonResolved data) ->
  let w := serve js h POST (str "/api/generate") body in
  List.length (upstream_calls w) = 1 /\
  status_code w = 500 /\
  exists e, delivered w = [JsonBody (generate_failure js e)].
Proof.
  intros Gm Gp Gs Go Gt Gtp NS D Mt Up. cbv zeta. unfold serve.
  rewrite dispatch_generate.
  rewrite (api_generate_eq h body prompt stream0 options0 temperature top_p
             world0 Gm Gp Gs Go Gt Gtp).
  destruct (generateToken_mintable js h _ 3600 world0 Mt) as [tok ->].
  cbv zeta. rewrite NS, Up.
  match goal with
  | |- context [generate_answer js h prompt data ?w0] =>
      destruct (generate_answer_without_prompt h prompt data w0 D)
        as [e [n ->]]
  end.
  repeat split. exists e. reflexivity.
Qed.

(** The handler of /api/generate never sets status 404 for a request that
    names the model. *)
Lemma api_generate_status (h : Host) (body : value) :
  get body "model" = Ok (VStr jiutian_lan) ->
  status_code (snd (api_generate js h body world0)) <> 404.
Proof.
  intros Gm.
  destruct (get_defined body _ "model" "prompt" Gm) as [prompt Gp].
  destruct (get_defined body _ "model" "stream" Gm) as [stream0 Gs].
  destruct (get_defined body _ "model" "options" Gm) as [options0 Go].
  destruct (get (default_to (VObj []) options0) "temperature")
    as [temperature|e1] eqn:Gt.
  - destruct (get (default_to (VObj []) options0) "top_p")
      as [top_p|e2] eqn:Gtp.
    + rewrite (api_generate_eq h body prompt stream0 options0 temperature
                 top_p world0 Gm Gp Gs Go Gt Gtp).
      destruct (generateToken js h (JIUTIAN_API_KEY h) 3600 world0)
        as [[tok|e] w1] eqn:T.
      * assert (W : status_code w1 = 200).
        { destruct (mintable (JIUTIAN_API_KEY h)) eqn:Mt.
          - destruct (generateToken_mintable js h _ 3600 world0 Mt)
              as [tok' T']. rewrite T' in T. inversion T. reflexivity.
          - destruct (generateToken_unmintable js h _ 3600 world0 Mt)
              as [n T']. rewrite T' in T. discriminate. }
        unfold status_code in *. cbv zeta.
        destruct (truthy (default_to VTrue stream0)).
        -- destruct (upstream_stream h _) as [e|events].
           ++ cbn [snd trace]. rewrite !fold_left_app. simpl. discriminate.
           ++ cbn [snd].
              match goal with
              | |- context [generate_session js h prompt events ?w0] =>
                  destruct (generate_session_calls js h prompt events w0)
                    as [out [E B]]
              end.
              rewrite E. cbn [trace]. rewrite !fold_left_app.
              rewrite (status_of_body_calls out _ B). simpl.
              rewrite W. discriminate.
        -- destruct (upstream_json h _) as [e|data].
           ++ cbn [snd trace]. rewrite !fold_left_app. simpl. discriminate.
           ++ match goal with
              | |- context [generate_answer js h prompt data ?w0] =>
                  destruct (generate_answer_cases h prompt data w0)
                    as [[e [n ->]]|[v [n ->]]]
              end; cbn [snd trace]; rewrite !fold_left_app; simpl;
                rewrite ?W; discriminate.
      * unfold status_code. cbn [snd trace]. rewrite fold_left_app. simpl.
        discriminate.
    + unfold api_generate, try_catch, lift. cbn [bind M_monad].
      rewrite Gm, Gp, Gs, Go.
      destruct (get_defined body _ "model" "system" Gm) as [v3 ->].
      change (strict_eq_str (VStr jiutian_lan) jiutian_lan) with true.
      cbn [negb]. rewrite Gt, Gtp. simpl. discriminate.
  - unfold api_generate, try_catch, lift. cbn [bind M_monad].
    rewrite Gm, Gp, Gs, Go.
    destruct (get_defined body _ "model" "system" Gm) as [v3 ->].
    change (strict_eq_str (VStr jiutian_lan) jiutian_lan) with true.
    cbn [negb]. rewrite Gt. simpl. discriminate.
Qed.

(** X17: /api/tags and the model check agree.  The listing is answered
    without any upstream call and holds exactly one model, jiutian-lan; and
    a request to /api/generate that names the listed model is never
    answered 404, whatever else the request holds and whatever the
    provider does. *)
Theorem listed_model_is_never_unknown (h : Host) (body : value) :
  (exists entry,
      delivered (serve js h GET (str "/api/tags") body)
      = [JsonBody (obj [("models", VArr [entry])])] /\
      json_field entry "name" = Some (VStr jiutian_lan) /\
      upstream_calls (serve js h GET (str "/api/tags") body) = []) /\
  (get body "model" = Ok (VStr jiutian_lan) ->
   status_code (serve js h POST (str "/api/generate") body) <> 404).
Proof.
  split.
  - eexists. repeat split.
  - intros Gm. unfold serve. rewrite dispatch_generate.
    apply api_generate_status. exact Gm.
Qed.

End GenerateEdges.

(* ================================================================== *)
(** ** JSON text followed by more text *)

Module JsonTrailing.
Import Json.

Lemma skip_ws_app_nonempty (s t : jsstring) :
  skip_ws s <> [] -> skip_ws (s ++ t) = skip_ws s ++ t.
Proof.
  induction s as [|c r IH]; simpl.
  - congruence.
  - destruct (is_ws c); [exact IH|reflexivity].
Qed.

Lemma skip_ws_app_cons (s t r : jsstring) (c : N) :
  skip_ws s = c :: r -> skip_ws (s ++ t) = c :: r ++ t.
Proof.
  intros E. rewrite skip_ws_app_nonempty by (rewrite E; discriminate).
  now rewrite E.
Qed.

Lemma skip_ws_app_blank (s t : jsstring) :
  skip_ws s = [] -> skip_ws (s ++ t) = skip_ws t.
Proof.
  induction s as [|c r IH]; simpl.
  - reflexivity.
  - destruct (is_ws c); [exact IH|discriminate].
Qed.

Lemma parse_chars_app (s t x r : jsstring) :
  parse_chars s = Some (x, r) -> parse_chars (s ++ t) = Some (x, r ++ t).
Proof.
  remember (List.length s) as n eqn:Hn.
  revert s x r Hn.
  induction n as [n IH] using lt_wf_ind.
  intros s x r Hn H. subst n.
  destruct s as [|c s']; [discriminate|].
  simpl in H |- *.
  destruct (N.eqb c 34).
  { inversion H; subst; reflexivity. }
  destruct (N.eqb c 92).
  - destruct s' as [|e r1]; [discriminate|]. simpl in H |- *.
    destruct (N.eqb e 117).
    + destruct r1 as [|a [|b [|c' [|d r2]]]]; try discriminate.
      simpl in H |- *.
      destruct (hex4 a b c' d); [|discriminate].
      destruct (parse_chars r2) as [[t' rest']|] eqn:E; [|discriminate].
      rewrite (IH (List.length r2) ltac:(simpl; lia) r2 _ _ eq_refl E).
      inversion H; subst. reflexivity.
    + destruct (unescape e); [|discriminate].
      destruct (parse_chars r1) as [[t' rest']|] eqn:E; [|discriminate].
      rewrite (IH (List.length r1) ltac:(simpl; lia) r1 _ _ eq_refl E).
      inversion H; subst. reflexivity.
  - destruct (N.ltb c 32); [discriminate|].
    destruct (parse_chars s') as [[t' rest']|] eqn:E; [|discriminate].
    rewrite (IH (List.length s') ltac:(simpl; lia) s' _ _ eq_refl E).
    inversion H; subst. reflexivity.
Qed.

Lemma take_digits_app (s t r : jsstring) (ds : list N) (c : N) :
  take_digits s = (ds, c :: r) -> take_digits (s ++ t) = (ds, c :: r ++ t).
Proof.
  revert ds; induction s as [|d s IH]; simpl; intros ds H; [discriminate|].
  destruct (is_digit d).
  - destruct (take_digits s) as [ds' rest'] eqn:E.
    inversion H; subst. now rewrite (IH ds' eq_refl).
  - inversion H; subst. reflexivity.
Qed.

Lemma parse_fraction_app (s t r : jsstring) (ds : list N) (c : N) :
  parse_fraction s = Some (ds, c :: r) ->
  parse_fraction (s ++ t) = Some (ds, c :: r ++ t).
Proof.
  unfold parse_fraction. destruct s as [|d s]; [discriminate|]. cbn [app].
  destruct (N.eqb d 46).
  - destruct (take_digits s) as [[|x ds'] rest'] eqn:E; [discriminate|].
    intros H; inversion H; subst.
    now rewrite (take_digits_app s t r (x :: ds') c E).
  - intros H; inversion H; subst. reflexivity.
Qed.

Lemma parse_exponent_app (s t r : jsstring) (e : Z) (c : N) :
  parse_exponent s = Some (e, c :: r) ->
  parse_exponent (s ++ t) = Some (e, c :: r ++ t).
Proof.
  unfold parse_exponent. destruct s as [|d s]; [discriminate|]. cbn [app].
  destruct (N.eqb d 101 || N.eqb d 69).
  - destruct s as [|c1 s'].
    + simpl. discriminate.
    + cbn [app]. destruct (N.eqb c1 45).
      { destruct (take_digits s') as [[|x ds'] rest'] eqn:E; [discriminate|].
        intros H; inversion H; subst.
        now rewrite (take_digits_app s' t r (x :: ds') c E). }
      destruct (N.eqb c1 43).
      { destruct (take_digits s') as [[|x ds'] rest'] eqn:E; [discriminate|].
        intros H; inversion H; subst.
        now rewrite (take_digits_app s' t r (x :: ds') c E). }
      destruct (take_digits (c1 :: s')) as [[|x ds'] rest'] eqn:E;
        [discriminate|].
      intros H; inversion H; subst.
      change (c1 :: s' ++ t) with ((c1 :: s') ++ t).
      now rewrite (take_digits_app (c1 :: s') t r (x :: ds') c E).
  - intros H; inversion H; subst. reflexivity.
Qed.

Lemma parse_exponent_rest (s r : jsstring) (e : Z) :
  parse_exponent s = Some (e, r) -> r <> [] -> s <> [].
Proof. destruct s; simpl; intros H N; [inversion H; congruence|discriminate]. Qed.

Lemma parse_fraction_rest (s r : jsstring) (ds : list N) :
  parse_fraction s = Some (ds, r) -> r <> [] -> s <> [].
Proof. destruct s; simpl; intros H N; [inversion H; congruence|discriminate]. Qed.

(** A numeral that is followed by something is read the same whatever
    follows that. *)
Lemma parse_number_app (s t r : jsstring) (n : number) :
  parse_number s = Some (n, r) -> r <> [] ->
  parse_number (s ++ t) = Some (n, r ++ t).
Proof.
  unfold parse_number. intros H Nr.
  assert (G : forall sign s1,
             match take_digits s1 with
             | ([], _) => None
             | (d :: more, s2) =>
                 if N.eqb d 0 && negb (Nat.eqb (List.length more) 0) then None
                 else
                   match parse_fraction s2 with
                   | None => None
                   | Some (frac, s3) =>
                       match parse_exponent s3 with
                       | None => None
                       | Some (e, s4) =>
                           Some (mkNum sign (digits_value ((d :: more) ++ frac))
                                   (e - Z.of_nat (List.length frac)), s4)
                       end
                   end
             end = Some (n, r) ->
             match take_digits (s1 ++ t) with
             | ([], _) => None
             | (d :: more, s2) =>
                 if N.eqb d 0 && negb (Nat.eqb (List.length more) 0) then None
                 else
                   match parse_fraction s2 with
                   | None => None
                   | Some (frac, s3) =>
                       match parse_exponent s3 with
                       | None => None
                       | Some (e, s4) =>
                           Some (mkNum sign (digits_value ((d :: more) ++ frac))
                                   (e - Z.of_nat (List.length frac)), s4)
                       end
                   end
             end = Some (n, r ++ t)).
  { intros sign s1 H1.
    destruct (take_digits s1) as [[|d more] s2] eqn:Td; [discriminate|].
    destruct (N.eqb d 0 && negb (Nat.eqb (List.length more) 0)) eqn:Z0;
      [discriminate|].
    destruct (parse_fraction s2) as [[frac s3]|] eqn:F; [|discriminate].
    destruct (parse_exponent s3) as [[e s4]|] eqn:X; [|discriminate].
    inversion H1; subst.
    pose proof (parse_exponent_rest s3 r e X Nr) as N3.
    pose proof (parse_fraction_rest s2 s3 frac F N3) as N2.
    destruct r as [|cr r']; [congruence|].
    destruct s3 as [|c3 s3']; [congruence|].
    destruct s2 as [|c2 s2']; [congruence|].
    rewrite (take_digits_app s1 t s2' (d :: more) c2 Td), Z0.
    change (c2 :: s2' ++ t) with ((c2 :: s2') ++ t).
    rewrite (parse_fraction_app (c2 :: s2') t s3' frac c3 F).
    change (c3 :: s3' ++ t) with ((c3 :: s3') ++ t).
    rewrite (parse_exponent_app (c3 :: s3') t r' e cr X).
    reflexivity. }
  destruct s as [|c s'].
  - simpl in H. discriminate.
  - cbn [app]. destruct (N.eqb c 45).
    + apply (G true s'). exact H.
    + change (c :: s' ++ t) with ((c :: s') ++ t). apply (G false (c :: s')).
      exact H.
Qed.

Lemma strip_prefix_app (p s t r : jsstring) :
  strip_prefix p s = Some r -> strip_prefix p (s ++ t) = Some (r ++ t).
Proof.
  revert s; induction p as [|x p IH]; intros s H; simpl in *.
  - inversion H; subst. reflexivity.
  - destruct s as [|c s']; [discriminate|]. simpl.
    destruct (N.eqb x c); [auto|discriminate].
Qed.

Lemma literal_app (word : string) (v v' : value) (s t r : jsstring) :
  literal word v s = POk v' r -> literal word v (s ++ t) = POk v' (r ++ t).
Proof.
  unfold literal.
  destruct (strip_prefix (str word) s) as [r0|] eqn:E; [|discriminate].
  intros H; inversion H; subst.
  now rewrite (strip_prefix_app _ _ t _ E).
Qed.

Lemma literal_self_delimited (word : string) (v v' : value) (s r : jsstring) :
  self_delimited v = true -> literal word v s = POk v' r ->
  self_delimited v' = true.
Proof.
  unfold literal. destruct (strip_prefix (str word) s); [|discriminate].
  intros D H; inversion H; subst. exact D.
Qed.

Local Arguments literal : simpl never.
Local Arguments parse_number : simpl never.
Local Arguments parse_chars : simpl never.
Local Arguments skip_ws : simpl never.

(** More fuel does not change a result. *)
Lemma parse_fuel_mono (f : nat) :
  forall g, f <= g ->
  (forall s v r, parse_value f s = POk v r -> parse_value g s = POk v r) /\
  (forall s vs r,
      parse_elements f s = POk vs r -> parse_elements g s = POk vs r) /\
  (forall s kvs r,
      parse_members f s = POk kvs r -> parse_members g s = POk kvs r).
Proof.
  induction f as [|f IH]; intros g L.
  { repeat split; intros; simpl in *; discriminate. }
  destruct g as [|g]; [lia|].
  destruct (IH g ltac:(lia)) as [IHv [IHe IHm]].
  repeat split.
  - intros s v r H. destruct s as [|c r0]; simpl in H |- *; [discriminate|].
    destruct (N.eqb c 123).
    { destruct (skip_ws r0) as [|c' r']; [discriminate|].
      destruct (N.eqb c' 125); [exact H|].
      destruct (parse_members f (c' :: r')) as [kvs rest| |] eqn:M;
        try discriminate.
      now rewrite (IHm _ _ _ M). }
    destruct (N.eqb c 91).
    { destruct (skip_ws r0) as [|c' r']; [discriminate|].
      destruct (N.eqb c' 93); [exact H|].
      destruct (parse_elements f (c' :: r')) as [vs rest| |] eqn:M;
        try discriminate.
      now rewrite (IHe _ _ _ M). }
    exact H.
  - intros s vs r H. simpl in H |- *.
    destruct (parse_value f s) as [v r1| |] eqn:V; try discriminate.
    rewrite (IHv _ _ _ V).
    destruct (skip_ws r1) as [|c r']; [discriminate|].
    destruct (N.eqb c 44); [|exact H].
    destruct (parse_elements f (skip_ws r')) as [vs' rest| |] eqn:M;
      try discriminate.
    now rewrite (IHe _ _ _ M).
  - intros s kvs r H. destruct s as [|c r0]; simpl in H |- *; [discriminate|].
    destruct (N.eqb c 34); [|discriminate].
    destruct (parse_chars r0) as [[k r1]|]; [|discriminate].
    destruct (skip_ws r1) as [|c1 r2]; [discriminate|].
    destruct (N.eqb c1 58); [|discriminate].
    destruct (parse_value f (skip_ws r2)) as [v r3| |] eqn:V; try discriminate.
    rewrite (IHv _ _ _ V).
    destruct (skip_ws r3) as [|c3 r4]; [discriminate|].
    destruct (N.eqb c3 44); [|exact H].
    destruct (parse_members f (skip_ws r4)) as [kvs' rest| |] eqn:M;
      try discriminate.
    now rewrite (IHm _ _ _ M).
Qed.

Lemma parse_nothing (f : nat) :
  (forall v r, parse_value f [] <> POk v r) /\
  (forall vs r, parse_elements f [] <> POk vs r) /\
  (forall kvs r, parse_members f [] <> POk kvs r).
Proof.
  destruct (JsonFacts.parse_consumes f) as [Cv [Ce Cm]].
  repeat split; intros x r H;
    [apply Cv in H|apply Ce in H|apply Cm in H]; simpl in H; lia.
Qed.

(** A value that is followed by something, or that ends at its own last
    character, is read the same whatever text is appended. *)
Lemma parse_app (f : nat) (t : jsstring) :
  (forall s v r,
      parse_value f s = POk v r ->
      r <> [] \/ self_delimited v = true ->
      parse_value f (s ++ t) = POk v (r ++ t)) /\
  (forall s vs r,
      parse_elements f s = POk vs r ->
      parse_elements f (s ++ t) = POk vs (r ++ t)) /\
  (forall s kvs r,
      parse_members f s = POk kvs r ->
      parse_members f (s ++ t) = POk kvs (r ++ t)).
Proof.
  induction f as [|f [IHv [IHe IHm]]].
  { repeat split; intros; simpl in *; discriminate. }
  repeat split.
  - intros s v r H D. destruct s as [|c r0]; [simpl in H; discriminate|].
    cbn [app]. simpl in H |- *.
    destruct (N.eqb c 123).
    { destruct (skip_ws r0) as [|c' r'] eqn:E; [discriminate|].
      rewrite (skip_ws_app_cons r0 t r' c' E).
      destruct (N.eqb c' 125).
      - inversion H; subst. reflexivity.
      - destruct (parse_members f (c' :: r')) as [kvs rest| |] eqn:M;
          try discriminate.
        change (c' :: r' ++ t) with ((c' :: r') ++ t).
        rewrite (IHm _ _ _ M). inversion H; subst. reflexivity. }
    destruct (N.eqb c 91).
    { destruct (skip_ws r0) as [|c' r'] eqn:E; [discriminate|].
      rewrite (skip_ws_app_cons r0 t r' c' E).
      destruct (N.eqb c' 93).
      - inversion H; subst. reflexivity.
      - destruct (parse_elements f (c' :: r')) as [vs rest| |] eqn:M;
          try discriminate.
        change (c' :: r' ++ t) with ((c' :: r') ++ t).
        rewrite (IHe _ _ _ M). inversion H; subst. reflexivity. }
    destruct (N.eqb c 34).
    { destruct (parse_chars r0) as [[x rest]|] eqn:P; [|discriminate].
      rewrite (parse_chars_app r0 t x rest P).
      inversion H; subst. reflexivity. }
    change (c :: r0 ++ t) with ((c :: r0) ++ t).
    destruct (N.eqb c 116); [now apply literal_app|].
    destruct (N.eqb c 102); [now apply literal_app|].
    destruct (N.eqb c 110); [now apply literal_app|].
    destruct (parse_number (c :: r0)) as [[n rest]|] eqn:P; [|discriminate].
    inversion H; subst.
    destruct D as [D|D]; [|discriminate].
    now rewrite (parse_number_app (c :: r0) t r n P D).
  - intros s vs r H. simpl in H |- *.
    destruct (parse_value f s) as [v r1| |] eqn:V; try discriminate.
    destruct (skip_ws r1) as [|c r'] eqn:E; [discriminate|].
    assert (N1 : r1 <> []) by (intros ->; discriminate).
    rewrite (IHv _ _ _ V (or_introl N1)).
    rewrite (skip_ws_app_cons r1 t r' c E).
    destruct (N.eqb c 44).
    + destruct (parse_elements f (skip_ws r')) as [vs' rest| |] eqn:M;
        try discriminate.
      assert (N2 : skip_ws r' <> []).
      { intros Z. rewrite Z in M.
        exact (proj1 (proj2 (parse_nothing f)) _ _ M). }
      rewrite (skip_ws_app_nonempty r' t N2), (IHe _ _ _ M).
      inversion H; subst. reflexivity.
    + destruct (N.eqb c 93); [|discriminate].
      inversion H; subst. reflexivity.
  - intros s kvs r H. destruct s as [|c r0]; [simpl in H; discriminate|].
    cbn [app]. simpl in H |- *.
    destruct (N.eqb c 34); [|discriminate].
    destruct (parse_chars r0) as [[k r1]|] eqn:P; [|discriminate].
    rewrite (parse_chars_app r0 t k r1 P).
    destruct (skip_ws r1) as [|c1 r2] eqn:E1; [discriminate|].
    rewrite (skip_ws_app_cons r1 t r2 c1 E1).
    destruct (N.eqb c1 58); [|discriminate].
    destruct (parse_value f (skip_ws r2)) as [v r3| |] eqn:V; try discriminate.
    assert (N2 : skip_ws r2 <> []).
    { intros Z. rewrite Z in V. exact (proj1 (parse_nothing f) _ _ V). }
    destruct (skip_ws r3) as [|c3 r4] eqn:E3; [discriminate|].
    assert (N3 : r3 <> []) by (intros ->; discriminate).
    rewrite (skip_ws_app_nonempty r2 t N2), (IHv _ _ _ V (or_introl N3)).
    rewrite (skip_ws_app_cons r3 t r4 c3 E3).
    destruct (N.eqb c3 44).
    + destruct (parse_members f (skip_ws r4)) as [kvs' rest| |] eqn:M;
        try discriminate.
      assert (N4 : skip_ws r4 <> []).
      { intros Z. rewrite Z in M.
        exact (proj2 (proj2 (parse_nothing f)) _ _ M). }
      rewrite (skip_ws_app_nonempty r4 t N4), (IHm _ _ _ M).
      inversion H; subst. reflexivity.
    + destruct (N.eqb c3 125); [|discriminate].
      inversion H; subst. reflexivity.
Qed.

(** A JSON text for an object, an array, a string or a literal stops being
    JSON as soon as anything but white space is appended to it. *)
Lemma parse_with_trailing (text more : jsstring) (v : value) :
  parse text = Some v ->
  self_delimited v = true ->
  skip_ws more <> [] ->
  parse (text ++ more) = None.
Proof.
  unfold parse, parse_document. intros H D M.
  destruct (parse_value (fuel_for (skip_ws text)) (skip_ws text))
    as [v0 r| |] eqn:P; try discriminate.
  destruct (skip_ws r) as [|? ?] eqn:R; [|discriminate].
  inversion H; subst v0.
  assert (N : skip_ws text <> []).
  { intros Z. rewrite Z in P. exact (proj1 (parse_nothing _) _ _ P). }
  rewrite (skip_ws_app_nonempty text more N).
  assert (L : fuel_for (skip_ws text) <= fuel_for (skip_ws text ++ more))
    by (unfold fuel_for; rewrite List.length_app; lia).
  apply (proj1 (parse_fuel_mono _ _ L)) in P.
  rewrite (proj1 (parse_app _ more) _ _ _ P (or_intror D)).
  rewrite (skip_ws_app_blank r more R).
  destruct (skip_ws more); [congruence|reflexivity].
Qed.

End JsonTrailing.

Section Coalesced.

Variable js : Engine.

Lemma startsWith_app (text more prefix : jsstring) :
  startsWith text prefix = true -> startsWith (text ++ more) prefix = true.
Proof.
  revert text; induction prefix as [|p ps IH]; intros text.
  { intros _. now destruct (text ++ more). }
  destruct text as [|c text']; simpl; [discriminate|].
  rewrite !andb_true_iff. intros [E S]. split; [exact E|]. now apply IH.
Qed.

Lemma startsWith_length (text prefix : jsstring) :
  startsWith text prefix = true -> List.length prefix <= List.length text.
Proof.
  revert text; induction prefix as [|p ps IH]; intros text; [simpl; lia|].
  destruct text as [|c text']; simpl; [discriminate|].
  rewrite andb_true_iff. intros [_ S]. apply IH in S. lia.
Qed.

(** Two events in one network read decode to nothing. *)
Lemma decode_coalesced (first more : jsstring) (data : value) :
  decode first = Some data ->
  self_delimited data = true ->
  Json.skip_ws more <> [] ->
  decode (first ++ more) = None.
Proof.
  unfold decode. intros D Sd M.
  destruct (startsWith first (str "data: ")) eqn:S; [|discriminate].
  rewrite (startsWith_app first more _ S).
  pose proof (startsWith_length _ _ S) as L. simpl in L.
  unfold substring in *. rewrite List.skipn_app.
  replace (6 - List.length first) with 0 by lia. simpl skipn at 2.
  exact (JsonTrailing.parse_with_trailing _ more data D Sd M).
Qed.

(** X18: events that arrive together are lost together.  When a chunk
    holds a whole event (one that decodes to an object, an array, a string
    or a literal) directly followed by anything but white space, such as a
    second event, the chunk as a whole is not JSON after its prefix:
    neither event is relayed, nothing is accumulated, and the session is
    left as it was. *)
Theorem coalesced_events_are_dropped (h : Host) (prompt : value)
    (first more : jsstring) (data : value) (w : world) :
  decode first = Some data ->
  self_delimited data = true ->
  Json.skip_ws more <> [] ->
  generate_session js h prompt [on_data (first ++ more)] w = w /\
  chat_session js h [on_data (first ++ more)] w = w.
Proof.
  intros D Sd M. pose proof (decode_coalesced first more data D Sd M) as N.
  split.
  - rewrite generate_session_data, generate_session_nil.
    now rewrite (generate_on_data_undecoded js h prompt _ w N).
  - rewrite chat_session_data. unfold chat_session. simpl for_each.
    now rewrite (chat_on_data_undecoded js h _ w N).
Qed.

End Coalesced.

Lemma coalesced_events_are_dropped_witness :
  decode (upstream_delta "2") = Some first_delta_data /\
  self_delimited first_delta_data = true /\
  Json.skip_ws (upstream_delta "*") <> [] /\
  generate_session sample_engine (sample_host [] VNull) scenario_prompt
    [on_data (upstream_delta "2" ++ upstream_delta "*")] world0 = world0.
Proof.
  assert (D : decode (upstream_delta "2") = Some first_delta_data)
    by (vm_compute; reflexivity).
  assert (Sd : self_delimited first_delta_data = true) by reflexivity.
  assert (M : Json.skip_ws (upstream_delta "*") <> [])
    by (vm_compute; discriminate).
  split; [exact D|]. split; [exact Sd|]. split; [exact M|].
  exact (proj1 (coalesced_events_are_dropped sample_engine
                  (sample_host [] VNull) scenario_prompt _ _ _ world0
                  D Sd M)).
Defined.

(* ================================================================== *)
(** ** The logging middleware *)

Lemma own_delete_property (key : string) (k : jsstring)
    (props : list (jsstring * value)) :
  own k (delete_property key props)
  = if str_eqb k (str key) then None else own k props.
Proof.
  unfold delete_property.
  induction props as [|[k' v] rest IH]; simpl.
  { now destruct (str_eqb k (str key)). }
  destruct (str_eqb k' (str key)) eqn:D; simpl; rewrite IH.
  - apply str_eqb_eq in D. subst k'.
    destruct (str_eqb k (str key)) eqn:K.
    + reflexivity.
    + destruct (own k rest); [reflexivity|].
      destruct (str_eqb (str key) k) eqn:K'; [|reflexivity].
      apply str_eqb_eq in K'. subst k.
      assert (T : str_eqb (str key) (str key) = true)
        by now apply str_eqb_eq.
      congruence.
  - destruct (str_eqb k (str key)) eqn:K; [|reflexivity].
    apply str_eqb_eq in K. subst k. now rewrite D.
Qed.

(** X19: the API key of a request body is never logged.  Whatever the
    body, the middleware logs the request line and then an object that has
    no [apiKey] property and every other top-level property of the body
    unchanged; it answers nothing itself. *)
Theorem api_key_is_not_logged (js : Engine) (h : Host) (req : request)
    (w : world) :
  exists props,
    fst (loggerMiddleware js h req w)
    = Ok [LogRequest (created_at_reading js h (ticks w))
            (req_method req) (req_url req);
          LogBody (VObj props)] /\
    get (VObj props) "apiKey" = Ok VUndefined /\
    (forall k, str_eqb k (str "apiKey") = false ->
               own k props = own k (spread (req_body req))) /\
    trace (snd (loggerMiddleware js h req w)) = trace w.
Proof.
  exists (delete_property "apiKey" (spread (req_body req))).
  split; [reflexivity|]. split; [|split; [|reflexivity]].
  - cbn [get]. rewrite own_delete_property.
    assert (T : str_eqb (str "apiKey") (str "apiKey") = true)
      by now apply str_eqb_eq.
    now rewrite T.
  - intros k K. rewrite own_delete_property. now rewrite K.
Qed.

Lemma shown_response_length (body : jsstring) :
  List.length (shown_response body) <= 203.
Proof.
  unfold shown_response. rewrite List.length_app, List.length_firstn.
  assert (D : List.length (str "...") = 3) by reflexivity.
  destruct (Nat.ltb 200 (List.length body)); [rewrite D|].
  - pose proof (Nat.le_min_l 200 (List.length body)). lia.
  - pose proof (Nat.le_min_l 200 (List.length body)).
    change (List.length (@nil N)) with 0. lia.
Qed.

Lemma shown_response_short (body : jsstring) :
  List.length body <= 200 -> shown_response body = body.
Proof.
  intros L. unfold shown_response.
  rewrite List.firstn_all2 by exact L.
  destruct (Nat.ltb 200 (List.length body)) eqn:E.
  - apply Nat.ltb_lt in E. lia.
  - apply app_nil_r.
Qed.

(** X20: what the patched [res.send] logs.  For a request whose body can
    be read, a truthy [stream] field silences the response log; otherwise
    exactly one line is logged, at most 203 code units long, which is the
    whole response when that has at most 200 code units and its first 200
    followed by three dots when it is longer. *)
Theorem logged_response_is_bounded (body_of_request stream : value)
    (body : jsstring) :
  get body_of_request "stream" = Ok stream ->
  (truthy stream = true -> logged_send body_of_request body = Ok []) /\
  (truthy stream = false ->
   exists shown,
     logged_send body_of_request body = Ok [LogResponse shown] /\
     List.length shown <= 203 /\
     (List.length body <= 200 -> shown = body) /\
     (200 < List.length body ->
      firstn 200 shown = firstn 200 body /\
      skipn 200 shown = str "...")).
Proof.
  intros G. unfold logged_send. rewrite G. cbn [bind outcome_monad].
  split; intros T; rewrite T; [reflexivity|].
  exists (shown_response body). split; [reflexivity|].
  split; [apply shown_response_length|].
  split; [apply shown_response_short|].
  intros L. unfold shown_response.
  apply Nat.ltb_lt in L as E. rewrite E.
  assert (F : List.length (firstn 200 body) = 200)
    by (rewrite List.length_firstn; lia).
  split.
  - rewrite List.firstn_app, F. simpl (200 - 200). simpl (firstn 0 _).
    now rewrite app_nil_r, List.firstn_firstn.
  - rewrite List.skipn_app, F. simpl (200 - 200). simpl (skipn 0 _).
    rewrite List.skipn_all2 by lia. reflexivity.
Qed.

(** A request that cannot be read fails inside the patched [res.send]:
    the read of [req.body.stream] throws before anything is logged. *)
Lemma logged_send_without_body (body_of_request : value) (body : jsstring) :
  body_of_request = VUndefined \/ body_of_request = VNull ->
  logged_send body_of_request body
  = Throw (TypeError body_of_request (str "stream")).
Proof. intros [-> | ->]; reflexivity. Qed.

(* ================================================================== *)
(** ** Instances *)


Lemma upstream_end_leaves_response_open_witness :
  finished world0 = false /\
  Forall (fun c => finish_frame c = false) scenario_deltas /\
  finished
    (generate_session sample_engine (sample_host [] VNull) scenario_prompt
       (List.map on_data scenario_deltas ++ [on_end]) world0) = false.
Proof.
  assert (C : Forall (fun c => finish_frame c = false) scenario_deltas)
    by (repeat constructor).
  assert (F : finished world0 = false) by reflexivity.
  split; [exact F|]. split; [exact C|].
  exact (proj1 (upstream_end_leaves_response_open sample_engine
                  (sample_host [] VNull) scenario_prompt scenario_deltas
                  world0 F C)).
Defined.

Lemma upstream_error_ends_with_error_frame_witness :
  finished world0 = false /\
  Forall (fun c => finish_frame c = false) scenario_deltas /\
  finished
    (generate_session sample_engine (sample_host [] VNull) scenario_prompt
       (List.map on_data scenario_deltas
        ++ on_error (JsError (str "socket hang up")) :: [on_data upstream_finish])
       world0) = true.
Proof.
  assert (C : Forall (fun c => finish_frame c = false) scenario_deltas)
    by (repeat constructor).
  assert (F : finished world0 = false) by reflexivity.
  split; [exact F|]. split; [exact C|].
  exact (proj2 (proj1 (upstream_error_ends_with_error_frame sample_engine
                  (sample_host [] VNull) scenario_prompt scenario_deltas
                  (JsError (str "socket hang up")) [on_data upstream_finish]
                  world0 F C))).
Defined.


Lemma missing_prompt_never_finishes_witness :
  defined VUndefined = false /\
  finished world0 = false /\
  finished
    (generate_session sample_engine (sample_host [] VNull) VUndefined
       (List.map on_data scenario_chunks) world0) = false.
Proof.
  assert (D : defined VUndefined = false) by reflexivity.
  assert (F : finished world0 = false) by reflexivity.
  split; [exact D|]. split; [exact F|].
  exact (proj1 (missing_prompt_never_finishes sample_engine
                  (sample_host [] VNull) VUndefined scenario_chunks world0
                  D F)).
Defined.

Lemma upstream_request_of_generate_witness :
  get (generate_body scenario_prompt) "model" = Ok (VStr jiutian_lan) /\
  get (generate_body scenario_prompt) "prompt" = Ok scenario_prompt /\
  get (generate_body scenario_prompt) "stream" = Ok VFalse /\
  get (generate_body scenario_prompt) "options"
  = Ok (obj [("temperature", vnat 0)]) /\
  get (default_to (VObj []) (obj [("temperature", vnat 0)])) "temperature"
  = Ok (vnat 0) /\
  get (default_to (VObj []) (obj [("temperature", vnat 0)])) "top_p"
  = Ok VUndefined /\
  mintable (JIUTIAN_API_KEY (sample_host [] completion_data)) = true /\
  List.map call_body
    (upstream_calls
       (serve sample_engine (sample_host [] completion_data) POST
          (str "/api/generate") (generate_body scenario_prompt)))
  = [obj [("model", VStr jiutian_lan);
          ("prompt", scenario_prompt);
          ("temperature", or_else (vnat 0) (VNum num_0_7));
          ("top_p", or_else VUndefined (VNum num_0_9));
          ("history", VArr []);
          ("stream", default_to VTrue VFalse)]].
Proof.
  assert (G1 : get (generate_body scenario_prompt) "model"
               = Ok (VStr jiutian_lan)) by reflexivity.
  assert (G2 : get (generate_body scenario_prompt) "prompt"
               = Ok scenario_prompt) by reflexivity.
  assert (G3 : get (generate_body scenario_prompt) "stream" = Ok VFalse)
    by reflexivity.
  assert (G4 : get (generate_body scenario_prompt) "options"
               = Ok (obj [("temperature", vnat 0)])) by reflexivity.
  assert (G5 : get (default_to (VObj []) (obj [("temperature", vnat 0)]))
                 "temperature" = Ok (vnat 0)) by reflexivity.
  assert (G6 : get (default_to (VObj []) (obj [("temperature", vnat 0)]))
                 "top_p" = Ok VUndefined) by reflexivity.
  assert (Mt : mintable (JIUTIAN_API_KEY (sample_host [] completion_data))
               = true) by reflexivity.
  split; [exact G1|]. split; [exact G2|]. split; [exact G3|].
  split; [exact G4|]. split; [exact G5|]. split; [exact G6|].
  split; [exact Mt|].
  exact (proj2 (upstream_request_of_generate sample_engine
                  (sample_host [] completion_data)
                  (generate_body scenario_prompt) scenario_prompt VFalse
                  (obj [("temperature", vnat 0)]) (vnat 0) VUndefined
                  G1 G2 G3 G4 G5 G6 Mt)).
Defined.

Lemma unstreamed_generate_answer_witness :
  get (generate_body scenario_prompt) "model" = Ok (VStr jiutian_lan) /\
  get (generate_body scenario_prompt) "prompt" = Ok scenario_prompt /\
  get (generate_body scenario_prompt) "stream" = Ok VFalse /\
  get (generate_body scenario_prompt) "options"
  = Ok (obj [("temperature", vnat 0)]) /\
  get (default_to (VObj []) (obj [("temperature", vnat 0)])) "temperature"
  = Ok (vnat 0) /\
  get (default_to (VObj []) (obj [("temperature", vnat 0)])) "top_p"
  = Ok VUndefined /\
  truthy (default_to VTrue VFalse) = false /\
  get scenario_prompt "length" = Ok (vnat 5) /\
  mintable (JIUTIAN_API_KEY (sample_host [] completion_data)) = true /\
  (forall call,
      upstream_json (sample_host [] completion_data) call
      = JsonResolved completion_data) /\
  delivered
    (serve sample_engine (sample_host [] completion_data) POST
       (str "/api/generate") (generate_body scenario_prompt))
  = [JsonBody
       (generate_final
          (created_at_reading sample_engine
             (sample_host [] completion_data) 3)
          (VStr (str "6")) (vnat 5) (vnat (List.length (str "6"))))].
Proof.
  assert (G1 : get (generate_body scenario_prompt) "model"
               = Ok (VStr jiutian_lan)) by reflexivity.
  assert (G2 : get (generate_body scenario_prompt) "prompt"
               = Ok scenario_prompt) by reflexivity.
  assert (G3 : get (generate_body scenario_prompt) "stream" = Ok VFalse)
    by reflexivity.
  assert (G4 : get (generate_body scenario_prompt) "options"
               = Ok (obj [("temperature", vnat 0)])) by reflexivity.
  assert (G5 : get (default_to (VObj []) (obj [("temperature", vnat 0)]))
                 "temperature" = Ok (vnat 0)) by reflexivity.
  assert (G6 : get (default_to (VObj []) (obj [("temperature", vnat 0)]))
                 "top_p" = Ok VUndefined) by reflexivity.
  assert (NS : truthy (default_to VTrue VFalse) = false) by reflexivity.
  assert (L : get scenario_prompt "length" = Ok (vnat 5)) by reflexivity.
  assert (Mt : mintable (JIUTIAN_API_KEY (sample_host [] completion_data))
               = true) by reflexivity.
  assert (U : forall call,
             upstream_json (sample_host [] completion_data) call
             = JsonResolved completion_data) by reflexivity.
  split; [exact G1|]. split; [exact G2|]. split; [exact G3|].
  split; [exact G4|]. split; [exact G5|]. split; [exact G6|].
  split; [exact NS|]. split; [exact L|]. split; [exact Mt|].
  split; [exact U|].
  exact (proj1 (proj1 (unstreamed_generate_answer sample_engine
                  (sample_host [] completion_data)
                  (generate_body scenario_prompt) scenario_prompt (vnat 5)
                  VFalse (obj [("temperature", vnat 0)]) (vnat 0) VUndefined
                  completion_data G1 G2 G3 G4 G5 G6 NS L Mt U)
                  (obj [("text", VStr (str "6")); ("index", vnat 0);
                        ("finish_reason", VStr (str "stop"))])
                  [] (str "6") eq_refl eq_refl)).
Defined.

Lemma generate_failure_is_reported_witness :
  get (generate_body scenario_prompt) "model" = Ok (VStr jiutian_lan) /\
  get (generate_body scenario_prompt) "prompt" = Ok scenario_prompt /\
  get (generate_body scenario_prompt) "stream" = Ok VFalse /\
  get (generate_body scenario_prompt) "options"
  = Ok (obj [("temperature", vnat 0)]) /\
  get (default_to (VObj []) (obj [("temperature", vnat 0)])) "temperature"
  = Ok (vnat 0) /\
  get (default_to (VObj []) (obj [("temperature", vnat 0)])) "top_p"
  = Ok VUndefined /\
  mintable (JIUTIAN_API_KEY unconfigured_host) = false /\
  status_code
    (serve sample_engine unconfigured_host POST (str "/api/generate")
       (generate_body scenario_prompt)) = 500.
Proof.
  assert (G1 : get (generate_body scenario_prompt) "model"
               = Ok (VStr jiutian_lan)) by reflexivity.
  assert (G2 : get (generate_body scenario_prompt) "prompt"
               = Ok scenario_prompt) by reflexivity.
  assert (G3 : get (generate_body scenario_prompt) "stream" = Ok VFalse)
    by reflexivity.
  assert (G4 : get (generate_body scenario_prompt) "options"
               = Ok (obj [("temperature", vnat 0)])) by reflexivity.
  assert (G5 : get (default_to (VObj []) (obj [("temperature", vnat 0)]))
                 "temperature" = Ok (vnat 0)) by reflexivity.
  assert (G6 : get (default_to (VObj []) (obj [("temperature", vnat 0)]))
                 "top_p" = Ok VUndefined) by reflexivity.
  assert (Mt : mintable (JIUTIAN_API_KEY unconfigured_host) = false)
    by reflexivity.
  split; [exact G1|]. split; [exact G2|]. split; [exact G3|].
  split; [exact G4|]. split; [exact G5|]. split; [exact G6|].
  split; [exact Mt|].
  exact (proj1 (proj2 (proj1 (generate_failure_is_reported sample_engine
                  unconfigured_host (generate_body scenario_prompt)
                  scenario_prompt VFalse (obj [("temperature", vnat 0)])
                  (vnat 0) VUndefined G1 G2 G3 G4 G5 G6) Mt))).
Defined.

Lemma unstreamed_generate_needs_prompt_witness :
  get (generate_body VNull) "model" = Ok (VStr jiutian_lan) /\
  get (generate_body VNull) "prompt" = Ok VNull /\
  get (generate_body VNull) "stream" = Ok VFalse /\
  get (generate_body VNull) "options"
  = Ok (obj [("temperature", vnat 0)]) /\
  get (default_to (VObj []) (obj [("temperature", vnat 0)])) "temperature"
  = Ok (vnat 0) /\
  get (default_to (VObj []) (obj [("temperature", vnat 0)])) "top_p"
  = Ok VUndefined /\
  truthy (default_to VTrue VFalse) = false /\
  defined VNull = false /\
  mintable (JIUTIAN_API_KEY (sample_host [] completion_data)) = true /\
  (forall call,
      upstream_json (sample_host [] completion_data) call
      = JsonResolved completion_data) /\
  status_code
    (serve sample_engine (sample_host [] completion_data) POST
       (str "/api/generate") (generate_body VNull)) = 500.
Proof.
  assert (G1 : get (generate_body VNull) "model" = Ok (VStr jiutian_lan))
    by reflexivity.
  assert (G2 : get (generate_body VNull) "prompt" = Ok VNull) by reflexivity.
  assert (G3 : get (generate_body VNull) "stream" = Ok VFalse)
    by reflexivity.
  assert (G4 : get (generate_body VNull) "options"
               = Ok (obj [("temperature", vnat 0)])) by reflexivity.
  assert (G5 : get (default_to (VObj []) (obj [("temperature", vnat 0)]))
                 "temperature" = Ok (vnat 0)) by reflexivity.
  assert (G6 : get (default_to (VObj []) (obj [("temperature", vnat 0)]))
                 "top_p" = Ok VUndefined) by reflexivity.
  assert (NS : truthy (default_to VTrue VFalse) = false) by reflexivity.
  assert (D : defined VNull = false) by reflexivity.
  assert (Mt : mintable (JIUTIAN_API_KEY (sample_host [] completion_data))
               = true) by reflexivity.
  assert (U : forall call,
             upstream_json (sample_host [] completion_data) call
             = JsonResolved completion_data) by reflexivity.
  split; [exact G1|]. split; [exact G2|]. split; [exact G3|].
  split; [exact G4|]. split; [exact G5|]. split; [exact G6|].
  split; [exact NS|]. split; [exact D|]. split; [exact Mt|].
  split; [exact U|].
  exact (proj1 (proj2 (unstreamed_generate_needs_prompt sample_engine
                  (sample_host [] completion_data) (generate_body VNull)
                  VNull VFalse (obj [("temperature", vnat 0)]) (vnat 0)
                  VUndefined completion_data
                  G1 G2 G3 G4 G5 G6 NS D Mt U))).
Defined.

Lemma listed_model_is_never_unknown_witness :
  get scenario_body "model" = Ok (VStr jiutian_lan) /\
  status_code
    (serve sample_engine (sample_host scenario_chunks VNull) POST
       (str "/api/generate") scenario_body) <> 404.
Proof.
  assert (G : get scenario_body "model" = Ok (VStr jiutian_lan))
    by reflexivity.
  split; [exact G|].
  exact (proj2 (listed_model_is_never_unknown sample_engine
                  (sample_host scenario_chunks VNull) scenario_body) G).
Defined.

Lemma logged_response_is_bounded_witness :
  get (generate_body scenario_prompt) "stream" = Ok VFalse /\
  truthy VFalse = false /\
  exists shown,
    logged_send (generate_body scenario_prompt) (str "{}")
    = Ok [LogResponse shown] /\
    List.length shown <= 203 /\
    (List.length (str "{}") <= 200 -> shown = str "{}") /\
    (200 < List.length (str "{}") ->
     firstn 200 shown = firstn 200 (str "{}") /\
     skipn 200 shown = str "...").
Proof.
  assert (G : get (generate_body scenario_prompt) "stream" = Ok VFalse)
    by reflexivity.
  assert (T : truthy VFalse = false) by reflexivity.
  split; [exact G|]. split; [exact T|].
  exact (proj2 (logged_response_is_bounded (generate_body scenario_prompt)
                  VFalse (str "{}") G) T).
Defined.
